(** * zkLocus: the point-in-polygon circuits and their proof algebra

    A shallow embedding of the circuits of [CoordinatesInPolygon] and
    [CoordinatesInOrOutOfPolygon], of the [ZKGeoPoint] prover mixin and of
    [ZKCoordinate], with the properties the specification states about them. *)

From Stdlib Require Import ZArith List Bool Lia String DecimalString.
Import ListNotations.
Open Scope Z_scope.

(** ** Outcome of running a circuit method

    A method either produces its public output or stops at the first
    constraint that cannot be satisfied. *)

Inductive Failure : Type :=
| ProofRejected      (* [proof.verify()] on a proof that does not verify *)
| AssertionFailed    (* [assertEquals], [assertNotEquals], [assertLessThanOrEqual] *)
| RangeCheckFailed   (* an integer result that leaves its type *)
| DivisionByZero.    (* [divMod] by a zero magnitude *)

Inductive Circuit (A : Type) : Type :=
| Ok (a : A)
| Fail (e : Failure).

Arguments Ok {A} a.
Arguments Fail {A} e.

Definition bind {A B : Type} (c : Circuit A) (k : A -> Circuit B) : Circuit B :=
  match c with
  | Ok a => k a
  | Fail e => Fail e
  end.

Notation "x <- c ;; k" := (bind c (fun x => k))
  (at level 61, c at next level, right associativity).
Notation "c ;;; k" := (bind c (fun _ => k))
  (at level 61, right associativity).

Definition assertTrue (b : bool) : Circuit unit :=
  if b then Ok tt else Fail AssertionFailed.

Definition succeeds {A : Type} (c : Circuit A) : Prop :=
  exists a, c = Ok a.

(** ** The field and the integer types of the proof system *)

Module Field.
(** Field elements are kept as their canonical representatives. *)
Definition t : Type := Z.
Definition ORDER : Z :=
  28948022309329048855892746252171976963363056481941560715954676764349967630337.
Definition equals (x y : t) : bool := x =? y.
Definition assertEquals (x y : t) : Circuit unit := assertTrue (equals x y).
Definition assertNotEquals (x y : t) : Circuit unit :=
  assertTrue (negb (equals x y)).
End Field.

Module UInt64.
Definition t : Type := Z.
Definition MAXINT : Z := 2 ^ 64 - 1.
Definition check (v : Z) : Circuit t :=
  if (0 <=? v) && (v <=? MAXINT) then Ok v else Fail RangeCheckFailed.
Definition mul (x y : t) : Circuit t := check (x * y).
Definition divMod (x y : t) : Circuit (t * t) :=
  if y =? 0 then Fail DivisionByZero else Ok (x / y, x mod y).
Definition assertLessThanOrEqual (x y : t) : Circuit unit :=
  assertTrue (x <=? y).
End UInt64.

Module Sign.
Inductive t : Type := one | minusOne.
Definition value (s : t) : Z :=
  match s with one => 1 | minusOne => -1 end.
Definition mul (a b : t) : t :=
  match a, b with
  | one, one | minusOne, minusOne => one
  | _, _ => minusOne
  end.
Definition isPositive (s : t) : bool :=
  match s with one => true | minusOne => false end.
Definition eqb (a b : t) : bool :=
  match a, b with
  | one, one | minusOne, minusOne => true
  | _, _ => false
  end.
End Sign.

(** Modelled from the spec: the fixed-point integer (FPI) of the data model,
    "a signed integer with magnitude and sign" whose arithmetic is "exact
    signed integer" within the 64-bit budget and whose division is
    "truncation toward zero".  The type itself belongs to the proof-system
    library; a sum, difference or product is re-read from its field element,
    which fails when the magnitude no longer fits 64 bits and which gives
    zero the positive sign, while a quotient keeps the product of the two
    signs. *)
Module Int64.
Record t : Type := mk { magnitude : UInt64.t; sgn : Sign.t }.

Definition toZ (x : t) : Z := Sign.value (sgn x) * magnitude x.
Definition toField (x : t) : Field.t := toZ x mod Field.ORDER.

Definition fromZ (v : Z) : Circuit t :=
  if Z.abs v <=? UInt64.MAXINT
  then Ok (mk (Z.abs v) (if v <? 0 then Sign.minusOne else Sign.one))
  else Fail RangeCheckFailed.

Definition one : t := mk 1 Sign.one.
Definition of_Z (v : Z) : t :=
  mk (Z.abs v) (if v <? 0 then Sign.minusOne else Sign.one).

Definition add (x y : t) : Circuit t := fromZ (toZ x + toZ y).
Definition sub (x y : t) : Circuit t := fromZ (toZ x - toZ y).
Definition mul (x y : t) : Circuit t := fromZ (toZ x * toZ y).
Definition div (x y : t) : Circuit t :=
  qr <- UInt64.divMod (magnitude x) (magnitude y) ;;
  Ok (mk (fst qr) (Sign.mul (sgn x) (sgn y))).

Definition assertEquals (x y : t) : Circuit unit :=
  Field.assertEquals (toField x) (toField y).

(** [Provable.equal] on two values of the struct: field by field. *)
Definition equal (x y : t) : bool :=
  (magnitude x =? magnitude y) && Sign.eqb (sgn x) (sgn y).
End Int64.

(** Modelled from the spec: [Int64Prover] (math/Provers) is not among the
    sources.  Its four predicates are the signed comparisons the
    specification writes as [yi > y], [x < ...], [min <= x <= max] and
    "detect zero denominator". *)
Module Int64Prover.
Definition provableIsInt64XGreaterThanY (x y : Int64.t) : bool :=
  Int64.toZ y <? Int64.toZ x.
Definition provableIsInt64XLessThanY (x y : Int64.t) : bool :=
  Int64.toZ x <? Int64.toZ y.
Definition provableIsInt64XLessThanOrEqualY (x y : Int64.t) : bool :=
  Int64.toZ x <=? Int64.toZ y.
Definition provableIsInt64XEqualToZero (x : Int64.t) : bool :=
  Int64.toZ x =? 0.
End Int64Prover.

(** ** Data structures *)

Record GeographicalPoint : Type := mkGeographicalPoint {
  latitude : Int64.t;
  longitude : Int64.t;
  factor : Int64.t
}.

Record NoncedGeographicalPoint : Type := mkNoncedGeographicalPoint {
  point : GeographicalPoint;
  nonce : Field.t
}.

Record ThreePointPolygon : Type := mkThreePointPolygon {
  vertice1 : GeographicalPoint;
  vertice2 : GeographicalPoint;
  vertice3 : GeographicalPoint
}.

Record CoordinateProofState : Type := mkCoordinateProofState {
  polygonCommitment : Field.t;
  coordinatesCommitment : Field.t;
  isInPolygon : bool
}.

Record CoordinatePolygonInclusionExclusionProof : Type :=
  mkCoordinatePolygonInclusionExclusionProof {
  insidePolygonCommitment : Field.t;
  outsidePolygonCommitment : Field.t;
  inOutCoordinatesCommitment : Field.t
}.

Record ProoveCoordinatesIn3dPolygonArgumentsValues : Type :=
  mkProoveCoordinatesIn3dPolygonArgumentsValues {
  argPoint : GeographicalPoint;
  argPolygon : ThreePointPolygon
}.

(** A recursive proof handed to a method: its public output, and whether
    [verify()] accepts it. *)
Record SelfProof (A : Type) : Type := mkSelfProof {
  publicOutput : A;
  verifies : bool
}.

Arguments mkSelfProof {A} publicOutput verifies.
Arguments publicOutput {A} s.
Arguments verifies {A} s.

Definition verify {A : Type} (p : SelfProof A) : Circuit unit :=
  if verifies p then Ok tt else Fail ProofRejected.

(** ** Coordinate validation *)

Definition GeographicalPoint_assertIsValid (p : GeographicalPoint) : Circuit unit :=
  scaled <- Int64.div (latitude p) (factor p) ;;
  UInt64.assertLessThanOrEqual (Int64.magnitude scaled) 90 ;;;
  UInt64.assertLessThanOrEqual (Int64.magnitude (longitude p)) 180 ;;;
  UInt64.assertLessThanOrEqual (Int64.magnitude (factor p)) (10 ^ 7).

Definition NoncedGeographicalPoint_assertIsValid (p : NoncedGeographicalPoint)
  : Circuit unit :=
  GeographicalPoint_assertIsValid (point p).

Definition verifyProoveCoordinatesIn3dPolygonArguments
    (p : NoncedGeographicalPoint) (polygon : ThreePointPolygon)
  : Circuit ProoveCoordinatesIn3dPolygonArgumentsValues :=
  NoncedGeographicalPoint_assertIsValid p ;;;
  GeographicalPoint_assertIsValid (vertice1 polygon) ;;;
  GeographicalPoint_assertIsValid (vertice2 polygon) ;;;
  GeographicalPoint_assertIsValid (vertice3 polygon) ;;;
  let expectedFactor := factor (point p) in
  Int64.assertEquals expectedFactor (factor (vertice1 polygon)) ;;;
  Int64.assertEquals expectedFactor (factor (vertice2 polygon)) ;;;
  Int64.assertEquals expectedFactor (factor (vertice3 polygon)) ;;;
  Ok (mkProoveCoordinatesIn3dPolygonArgumentsValues (point p) polygon).

(** ** Point-in-polygon predicate *)

Definition isPointOnEdgeProvable
    (p : NoncedGeographicalPoint) (v1 v2 : GeographicalPoint) : Circuit bool :=
  let x := latitude (point p) in
  let y := longitude (point p) in
  let x1 := latitude v1 in
  let y1 := longitude v1 in
  let x2 := latitude v2 in
  let y2 := longitude v2 in
  let isX1LargerThanX2 := Int64Prover.provableIsInt64XGreaterThanY x1 x2 in
  let maximumX := if isX1LargerThanX2 then x1 else x2 in
  let minimumX := if isX1LargerThanX2 then x2 else x1 in
  let isY1LargerThanY2 := Int64Prover.provableIsInt64XGreaterThanY y1 y2 in
  let maximumY := if isY1LargerThanY2 then y1 else y2 in
  let minimumY := if isY1LargerThanY2 then y2 else y1 in
  let withinXBounds :=
    Int64Prover.provableIsInt64XLessThanOrEqualY x maximumX
    && Int64Prover.provableIsInt64XLessThanOrEqualY minimumX x in
  let withinYBounds :=
    Int64Prover.provableIsInt64XLessThanOrEqualY y maximumY
    && Int64Prover.provableIsInt64XLessThanOrEqualY minimumY y in
  xDifference1 <- Int64.sub x2 x1 ;;
  xDifference2 <- Int64.sub x x1 ;;
  yDiffernce1 <- Int64.sub y2 y1 ;;
  yDiffernce2 <- Int64.sub y y1 ;;
  firstProduct <- Int64.mul xDifference1 yDiffernce2 ;;
  secondProduct <- Int64.mul xDifference2 yDiffernce1 ;;
  let onLine := Int64.equal firstProduct secondProduct in
  Ok (withinXBounds && withinYBounds && onLine).

(** The locals of one pass through the ray-casting loop, as the source logs
    them at the end of the pass. *)
Record RayCastPass : Type := mkRayCastPass {
  passDenominator : Int64.t;      (* the divisor actually handed to [div] *)
  passIsHorizontalEdge : bool;
  passResult : Int64.t;
  passJointCondition1 : bool;
  passJointCondition2 : bool;
  passIsIntersect : bool;
  passInside : bool
}.

Definition rayCastPass
    (x y : Int64.t) (vi vj : GeographicalPoint) (inside : bool)
  : Circuit RayCastPass :=
  let xi := latitude vi in
  let yi := longitude vi in
  let xj := latitude vj in
  let yj := longitude vj in
  let condition1 := Int64Prover.provableIsInt64XGreaterThanY yi y in
  let condition2 := Int64Prover.provableIsInt64XGreaterThanY yj y in
  let jointCondition1 :=
    negb (if Bool.eqb condition1 condition2 then true else false) in
  leftOperand <- Int64.sub xj xi ;;
  rightOperand <- Int64.sub y yi ;;
  magnitudeProduct <-
    UInt64.mul (Int64.magnitude leftOperand) (Int64.magnitude rightOperand) ;;
  let signProduct := Sign.mul (Int64.sgn leftOperand) (Int64.sgn rightOperand) in
  numerator <- Int64.mul leftOperand rightOperand ;;
  denominator0 <- Int64.sub yj yi ;;
  let isHorizontalEdge := Int64Prover.provableIsInt64XEqualToZero denominator0 in
  let denominator := if isHorizontalEdge then Int64.one else denominator0 in
  result_before_addition <- Int64.div numerator denominator ;;
  result <- Int64.add result_before_addition xi ;;
  let jointCondition2 := Int64Prover.provableIsInt64XLessThanY x result in
  let jointCondition2 := if isHorizontalEdge then false else jointCondition2 in
  let isIntersect := if jointCondition1 && jointCondition2 then true else false in
  let inside := if isIntersect then negb inside else inside in
  Ok (mkRayCastPass denominator isHorizontalEdge result
        jointCondition1 jointCondition2 isIntersect inside).

(** [for (let i = 0, j = vertices.length - 1; i < vertices.length; j = i++)]:
    [remaining] counts the passes still to run, [vertices.length - i]. *)
Fixpoint rayCastLoop
    (vertices : list GeographicalPoint) (dflt : GeographicalPoint)
    (x y : Int64.t) (remaining i j : nat) (inside : bool) : Circuit bool :=
  match remaining with
  | O => Ok inside
  | S remaining' =>
      pass <- rayCastPass x y (nth i vertices dflt) (nth j vertices dflt) inside ;;
      rayCastLoop vertices dflt x y remaining' (S i) i (passInside pass)
  end.

Definition isPointIn3PointPolygon
    (p : NoncedGeographicalPoint) (polygon : ThreePointPolygon) : Circuit bool :=
  let x := latitude (point p) in
  let y := longitude (point p) in
  let vertices := [vertice1 polygon; vertice2 polygon; vertice3 polygon] in
  let inside := false in
  isPointOnEdge1 <- isPointOnEdgeProvable p (vertice1 polygon) (vertice2 polygon) ;;
  isPointOnEdge2 <- isPointOnEdgeProvable p (vertice2 polygon) (vertice3 polygon) ;;
  isPointOnEdge3 <- isPointOnEdgeProvable p (vertice3 polygon) (vertice1 polygon) ;;
  let isPointLocatedOnEdge := isPointOnEdge1 || isPointOnEdge2 || isPointOnEdge3 in
  inside <- rayCastLoop vertices (vertice1 polygon) x y
              (List.length vertices) 0%nat (List.length vertices - 1)%nat inside ;;
  let inside := if isPointLocatedOnEdge then true else inside in
  Ok inside.

(** The specification's words for edge membership, over the integers the
    coordinates stand for. *)
Definition specOnEdge (x y x1 y1 x2 y2 : Z) : Prop :=
  Z.min x1 x2 <= x <= Z.max x1 x2 /\
  Z.min y1 y2 <= y <= Z.max y1 y2 /\
  (x2 - x1) * (y - y1) = (x - x1) * (y2 - y1).

Definition pointOnEdge (p : NoncedGeographicalPoint) (v1 v2 : GeographicalPoint)
  : Prop :=
  specOnEdge (Int64.toZ (latitude (point p))) (Int64.toZ (longitude (point p)))
             (Int64.toZ (latitude v1)) (Int64.toZ (longitude v1))
             (Int64.toZ (latitude v2)) (Int64.toZ (longitude v2)).

Definition pointAtVertex (p : NoncedGeographicalPoint) (v : GeographicalPoint)
  : Prop :=
  Int64.toZ (latitude (point p)) = Int64.toZ (latitude v) /\
  Int64.toZ (longitude (point p)) = Int64.toZ (longitude v).

(** The overflow budget of the specification: coordinate magnitudes stay
    below [2^31] (the largest valid one is [180 * 10^7]), so that every
    difference and product of the predicate stays inside 64 bits. *)
Definition withinBudget (v : Int64.t) : Prop :=
  0 <= Int64.magnitude v < 2 ^ 31.

Definition pointWithinBudget (g : GeographicalPoint) : Prop :=
  withinBudget (latitude g) /\ withinBudget (longitude g).

Definition inputsWithinBudget
    (p : NoncedGeographicalPoint) (polygon : ThreePointPolygon) : Prop :=
  pointWithinBudget (point p) /\
  pointWithinBudget (vertice1 polygon) /\
  pointWithinBudget (vertice2 polygon) /\
  pointWithinBudget (vertice3 polygon).

(** The coordinate domain in the specification's words:
    [|lat| / 10^f <= 90], [|lon| / 10^f <= 180] and [f <= 7], for a point
    whose factor is the scale [10^f]. *)
Definition specCoordinateDomain (g : GeographicalPoint) : Prop :=
  exists f : Z,
    0 <= f <= 7 /\
    Int64.toZ (factor g) = 10 ^ f /\
    Z.abs (Int64.toZ (latitude g)) <= 90 * 10 ^ f /\
    Z.abs (Int64.toZ (longitude g)) <= 180 * 10 ^ f.

(** ** Commitments and the recursive combiners

    The hash is a primitive of the proof system; the circuits are
    parametric in it. *)

Section Commitments.

Variable Poseidon_hash : list Field.t -> Field.t.

Definition GeographicalPoint_hash (g : GeographicalPoint) : Field.t :=
  Poseidon_hash [Int64.toField (latitude g);
                 Int64.toField (longitude g);
                 Int64.toField (factor g)].

Definition NoncedGeographicalPoint_hash (p : NoncedGeographicalPoint) : Field.t :=
  Poseidon_hash [GeographicalPoint_hash (point p); nonce p].

Definition ThreePointPolygon_hash (polygon : ThreePointPolygon) : Field.t :=
  Poseidon_hash [GeographicalPoint_hash (vertice1 polygon);
                 GeographicalPoint_hash (vertice2 polygon);
                 GeographicalPoint_hash (vertice3 polygon)].

Definition proveCoordinatesIn3PointPolygon
    (p : NoncedGeographicalPoint) (polygon : ThreePointPolygon)
  : Circuit CoordinateProofState :=
  isInPolygon <- isPointIn3PointPolygon p polygon ;;
  let polygonCommitment := ThreePointPolygon_hash polygon in
  let coordinatesCommitment := NoncedGeographicalPoint_hash p in
  Ok (mkCoordinateProofState polygonCommitment coordinatesCommitment isInPolygon).

Definition AND (proof1 proof2 : SelfProof CoordinateProofState)
  : Circuit CoordinateProofState :=
  verify proof1 ;;;
  verify proof2 ;;;
  Field.assertEquals (coordinatesCommitment (publicOutput proof1))
                     (coordinatesCommitment (publicOutput proof2)) ;;;
  Field.assertNotEquals (polygonCommitment (publicOutput proof1))
                        (polygonCommitment (publicOutput proof2)) ;;;
  let expectedSecondProofIsInPolygon :=
    if isInPolygon (publicOutput proof1) then true else false in
  Ok (mkCoordinateProofState
        (Poseidon_hash [polygonCommitment (publicOutput proof1);
                        polygonCommitment (publicOutput proof2)])
        (coordinatesCommitment (publicOutput proof1))
        expectedSecondProofIsInPolygon).

Definition OR (proof1 proof2 : SelfProof CoordinateProofState)
  : Circuit CoordinateProofState :=
  verify proof1 ;;;
  verify proof2 ;;;
  Field.assertEquals (coordinatesCommitment (publicOutput proof1))
                     (coordinatesCommitment (publicOutput proof2)) ;;;
  Field.assertNotEquals (polygonCommitment (publicOutput proof1))
                        (polygonCommitment (publicOutput proof2)) ;;;
  let isInPolygon' :=
    if isInPolygon (publicOutput proof1) || isInPolygon (publicOutput proof2)
    then true else false in
  Ok (mkCoordinateProofState
        (Poseidon_hash [polygonCommitment (publicOutput proof1);
                        polygonCommitment (publicOutput proof2)])
        (coordinatesCommitment (publicOutput proof1))
        isInPolygon').

Definition fromCoordinatesInPolygonProof (proof : SelfProof CoordinateProofState)
  : Circuit CoordinatePolygonInclusionExclusionProof :=
  verify proof ;;;
  let coodinatesInPolygonProof := publicOutput proof in
  let insideCommitment :=
    if isInPolygon coodinatesInPolygonProof
    then polygonCommitment coodinatesInPolygonProof else 0 in
  let outsideCommitment :=
    if isInPolygon coodinatesInPolygonProof
    then 0 else polygonCommitment coodinatesInPolygonProof in
  Ok (mkCoordinatePolygonInclusionExclusionProof
        insideCommitment outsideCommitment
        (coordinatesCommitment coodinatesInPolygonProof)).

Definition combine
    (proof1 proof2 : SelfProof CoordinatePolygonInclusionExclusionProof)
  : Circuit CoordinatePolygonInclusionExclusionProof :=
  verify proof1 ;;;
  verify proof2 ;;;
  let proof1PublicOutput := publicOutput proof1 in
  let proof2PublicOutput := publicOutput proof2 in
  Field.assertEquals (inOutCoordinatesCommitment (publicOutput proof1))
                     (inOutCoordinatesCommitment (publicOutput proof2)) ;;;
  let isInsidePolygonCommitmentEqual :=
    if Field.equals (insidePolygonCommitment proof1PublicOutput)
                    (insidePolygonCommitment proof2PublicOutput)
    then true else false in
  let isOutsidePolygonCommitmentEqual :=
    if Field.equals (outsidePolygonCommitment proof1PublicOutput)
                    (outsidePolygonCommitment proof2PublicOutput)
    then true else false in
  assertTrue (Bool.eqb (isInsidePolygonCommitmentEqual
                        && isOutsidePolygonCommitmentEqual) false) ;;;
  let isInsideCommitmentPresentInProof1 :=
    if Field.equals (insidePolygonCommitment proof1PublicOutput) 0
    then false else true in
  let isInsideCommitmentPresentInProof2 :=
    if Field.equals (insidePolygonCommitment proof2PublicOutput) 0
    then false else true in
  let isOutsideCommitmentPresentInProof1 :=
    if Field.equals (outsidePolygonCommitment proof1PublicOutput) 0
    then false else true in
  let isOutsideCommitmentPresentInProof2 :=
    if Field.equals (outsidePolygonCommitment proof2PublicOutput) 0
    then false else true in
  let newInsideCommitmentBothPresent :=
    Poseidon_hash [insidePolygonCommitment proof1PublicOutput;
                   insidePolygonCommitment proof2PublicOutput] in
  let newInsideCommitment :=
    if isInsideCommitmentPresentInProof1
       && negb isInsideCommitmentPresentInProof2
    then insidePolygonCommitment proof1PublicOutput
    else newInsideCommitmentBothPresent in
  let newInsideCommitment :=
    if negb isInsideCommitmentPresentInProof1
       && isInsideCommitmentPresentInProof2
    then insidePolygonCommitment proof2PublicOutput
    else newInsideCommitment in
  let newInsideCommitment :=
    if negb isInsideCommitmentPresentInProof1
       && negb isInsideCommitmentPresentInProof2
    then 0 else newInsideCommitment in
  let newOutsideCommitmentBothPresent :=
    Poseidon_hash [outsidePolygonCommitment proof1PublicOutput;
                   outsidePolygonCommitment proof2PublicOutput] in
  let newOutsideCommitment :=
    if isOutsideCommitmentPresentInProof1
       && negb isOutsideCommitmentPresentInProof2
    then outsidePolygonCommitment proof1PublicOutput
    else newOutsideCommitmentBothPresent in
  let newOutsideCommitment :=
    if negb isOutsideCommitmentPresentInProof1
       && isInsideCommitmentPresentInProof2
    then outsidePolygonCommitment proof2PublicOutput
    else newOutsideCommitment in
  let newInsideCommitment :=
    if negb isInsideCommitmentPresentInProof1
       && negb isInsideCommitmentPresentInProof2
    then 0 else newOutsideCommitment in
  Ok (mkCoordinatePolygonInclusionExclusionProof
        newInsideCommitment newOutsideCommitment
        (inOutCoordinatesCommitment proof1PublicOutput)).

(** The side rule of the specification: [0] when both sides are [0], the
    non-zero one when exactly one is [0], the hash of the two otherwise. *)
Definition specCombinedSide (side1 side2 : Field.t) : Field.t :=
  if Field.equals side1 0 then
    (if Field.equals side2 0 then 0 else side2)
  else
    (if Field.equals side2 0 then side1 else Poseidon_hash [side1; side2]).

(** *** Chains of compositions

    A composition is a tree of [AND]/[OR] steps over given proofs; a rollup
    lifts compositions into accumulators and combines them.  The output of
    a method is wrapped as a proof that verifies. *)

Inductive Composition : Type :=
| Given (proof : SelfProof CoordinateProofState)
| ViaAND (left right : Composition)
| ViaOR (left right : Composition).

Fixpoint compose (c : Composition) : Circuit (SelfProof CoordinateProofState) :=
  match c with
  | Given proof => Ok proof
  | ViaAND l r =>
      proof1 <- compose l ;;
      proof2 <- compose r ;;
      out <- AND proof1 proof2 ;;
      Ok (mkSelfProof out true)
  | ViaOR l r =>
      proof1 <- compose l ;;
      proof2 <- compose r ;;
      out <- OR proof1 proof2 ;;
      Ok (mkSelfProof out true)
  end.

Fixpoint givenProofs (c : Composition) : list (SelfProof CoordinateProofState) :=
  match c with
  | Given proof => [proof]
  | ViaAND l r | ViaOR l r => givenProofs l ++ givenProofs r
  end.

Inductive Rollup : Type :=
| Lifted (c : Composition)
| Combined (left right : Rollup).

Fixpoint rollup (r : Rollup)
  : Circuit (SelfProof CoordinatePolygonInclusionExclusionProof) :=
  match r with
  | Lifted c =>
      proof <- compose c ;;
      out <- fromCoordinatesInPolygonProof proof ;;
      Ok (mkSelfProof out true)
  | Combined l r =>
      proof1 <- rollup l ;;
      proof2 <- rollup r ;;
      out <- combine proof1 proof2 ;;
      Ok (mkSelfProof out true)
  end.

Fixpoint rolledProofs (r : Rollup) : list (SelfProof CoordinateProofState) :=
  match r with
  | Lifted c => givenProofs c
  | Combined l r => rolledProofs l ++ rolledProofs r
  end.

End Commitments.

(** A given proof is for the coordinates committed to by [c]. *)
Definition sameCoordinatesAs (c : Field.t) (given : SelfProof CoordinateProofState)
  : Prop :=
  coordinatesCommitment (publicOutput given) = c.

(** ** The prover mixin of [ZKGeoPoint]

    A call either returns or throws; a rejected promise of an [async] method
    is a throw at its [await]. *)

Inductive Outcome (A : Type) : Type :=
| Returned (a : A)
| Threw (message : string).

Arguments Returned {A} a.
Arguments Threw {A} message.

(** What a field declared [T | undefined] is compared against in the source:
    [undefined], [null], or an object. *)
Inductive JsSlot (A : Type) : Type :=
| Undefined
| Null
| Defined (a : A).

Arguments Undefined {A}.
Arguments Null {A}.
Arguments Defined {A} a.

Definition isUndefined {A : Type} (s : JsSlot A) : bool :=
  match s with Undefined => true | _ => false end.

Definition isNull {A : Type} (s : JsSlot A) : bool :=
  match s with Null => true | _ => false end.

(** The circuits the mixin calls live in other modules of the repository
    (zkprogram/private, zkprogram/public, sha3); the prover is parametric in
    them.  Wrapper objects and the values their [toZKValue()] returns are
    identified. *)
Record ProofSystem : Type := mkProofSystem {
  ZKPublicKey : Type;
  ZKSignature : Type;
  GeoPoint : Type;
  ZKThreePointPolygon : Type;
  Bytes64 : Type;
  OracleGeoPointProviderCircuitProof : Type;
  GeoPointProviderCircuitProof : Type;
  GeoPointInPolygonCircuitProof : Type;
  ExactGeoPointCircuitProof : Type;
  ExactGeolocationMetadataCircuitProof : Type;
  OracleGeoPointProviderCircuit_fromSignature :
    ZKPublicKey -> ZKSignature -> GeoPoint ->
    Outcome OracleGeoPointProviderCircuitProof;
  GeoPointProviderCircuit_fromOracle :
    OracleGeoPointProviderCircuitProof -> GeoPoint ->
    Outcome GeoPointProviderCircuitProof;
  GeoPointInPolygonCircuit_proveGeoPointIn3PointPolygon :
    GeoPointProviderCircuitProof -> ZKThreePointPolygon ->
    Outcome GeoPointInPolygonCircuitProof;
  ExactGeoPointCircuit_fromGeoPointProvider :
    GeoPointProviderCircuitProof -> Outcome ExactGeoPointCircuitProof;
  ExactGeolocationMetadataCircuit_attachMetadataToGeoPoint :
    GeoPointProviderCircuitProof -> Bytes64 ->
    Outcome ExactGeolocationMetadataCircuitProof;
  SHA3_512_digest : string -> Bytes64;
  UnverifiedProofData_isInside : GeoPointInPolygonCircuitProof -> bool
}.

Section Prover.

Variable S : ProofSystem.

Record ZKGeoPointProviderCircuitProof : Type := mkZKGeoPointProviderCircuitProof {
  providerProof : GeoPointProviderCircuitProof S
}.

Record ZKGeoPointInPolygonProof : Type := mkZKGeoPointInPolygonProof {
  inPolygonGeoPoint : GeoPoint S;
  inPolygonRawProof : GeoPointInPolygonCircuitProof S;
  inPolygonPolygon : ZKThreePointPolygon S
}.

Record ZKExactGeoPointCircuitProof : Type := mkZKExactGeoPointCircuitProof {
  exactGeoPointOf : GeoPoint S;
  exactRawProof : ExactGeoPointCircuitProof S
}.

Record ZKExactGeolocationMetadataCircuitProof : Type :=
  mkZKExactGeolocationMetadataCircuitProof {
  metadataGeoPoint : GeoPoint S;
  metadataText : string;
  metadataRawProof : ExactGeolocationMetadataCircuitProof S
}.

Record PolygonProofs : Type := mkPolygonProofs {
  insidePolygonProofs : list ZKGeoPointInPolygonProof;
  outsidePolygonProofs : list ZKGeoPointInPolygonProof
}.

(** The object state: the [ZKGeoPoint] the mixin extends, and the four
    private fields. *)
Record Prover : Type := mkProver {
  zkGeoPoint : GeoPoint S;
  integrationOracleProof : JsSlot ZKGeoPointProviderCircuitProof;
  exactGeolocationMetadataProof : JsSlot ZKExactGeolocationMetadataCircuitProof;
  inPolygonProof : PolygonProofs;
  allProfs : list ZKGeoPointProviderCircuitProof
}.

(** A freshly constructed object: the two optional fields have no
    initializer, the collections start empty. *)
Definition newProver (g : GeoPoint S) : Prover :=
  mkProver g Undefined Undefined (mkPolygonProofs [] []) [].

(** [slot.proof]: a property read, which throws on [undefined] and [null]. *)
Definition readProof (slot : JsSlot ZKGeoPointProviderCircuitProof)
  : Outcome (GeoPointProviderCircuitProof S) :=
  match slot with
  | Defined p => Returned (providerProof p)
  | Undefined => Threw "TypeError: Cannot read properties of undefined (reading 'proof')"
  | Null => Threw "TypeError: Cannot read properties of null (reading 'proof')"
  end.

Definition getIntegrationOracleProofOrError (this : Prover)
  : Outcome (JsSlot ZKGeoPointProviderCircuitProof) :=
  if isUndefined (integrationOracleProof this)
  then Threw "Integration Oracle proof is not available. Please call authenticateFromIntegrationOracle first."
  else Returned (integrationOracleProof this).

Definition exactGeoPointForIntegrationOracle (this : Prover)
  : Outcome ZKExactGeoPointCircuitProof :=
  match getIntegrationOracleProofOrError this with
  | Threw m => Threw m
  | Returned oracleProof =>
      match readProof oracleProof with
      | Threw m => Threw m
      | Returned rawProof =>
          match ExactGeoPointCircuit_fromGeoPointProvider S rawProof with
          | Threw m => Threw m
          | Returned rawExactGeoPointProof =>
              Returned (mkZKExactGeoPointCircuitProof
                          (zkGeoPoint this) rawExactGeoPointProof)
          end
      end
  end.

Definition exactGeoPoint (this : Prover) : Outcome ZKExactGeoPointCircuitProof :=
  if isNull (integrationOracleProof this)
  then Threw "Currently, ExactGeoPoint can only be generated for a ZKGeoPoint that has been authenticated from exactly one source. This will be supported in the future."
  else if negb (isNull (integrationOracleProof this))
  then exactGeoPointForIntegrationOracle this
  else Threw "Unsupported or unknown authentication source(s) for exactGeoPoint.".

Definition authenticateFromIntegrationOracle
    (this : Prover) (publicKey : ZKPublicKey S) (signature : ZKSignature S)
  : Prover * Outcome ZKGeoPointProviderCircuitProof :=
  let plainGeoPoint := zkGeoPoint this in
  match OracleGeoPointProviderCircuit_fromSignature S
          publicKey signature plainGeoPoint with
  | Threw m => (this, Threw m)
  | Returned oracleSignatureVerificationProof =>
      match GeoPointProviderCircuit_fromOracle S
              oracleSignatureVerificationProof plainGeoPoint with
      | Threw m => (this, Threw m)
      | Returned oracleGeoPointProviderProof =>
          let created :=
            mkZKGeoPointProviderCircuitProof oracleGeoPointProviderProof in
          (mkProver (zkGeoPoint this) (Defined created)
                    (exactGeolocationMetadataProof this)
                    (inPolygonProof this)
                    (allProfs this ++ [created]),
           Returned created)
      end
  end.

Definition inPolygon (this : Prover) (polygon : ZKThreePointPolygon S)
  : Prover * Outcome ZKGeoPointInPolygonProof :=
  if isUndefined (integrationOracleProof this)
  then (this, Threw "Currently, ExactGeoPoint can only be generated for a ZKGeoPoint that has been authenticated from the Oracle. This will be supported in the future.")
  else
    match readProof (integrationOracleProof this) with
    | Threw m => (this, Threw m)
    | Returned geoPointProof =>
        match GeoPointInPolygonCircuit_proveGeoPointIn3PointPolygon S
                geoPointProof polygon with
        | Threw m => (this, Threw m)
        | Returned geoPointInPolygonProof =>
            let zkPointInPolygonProof :=
              mkZKGeoPointInPolygonProof
                (zkGeoPoint this) geoPointInPolygonProof polygon in
            let recorded :=
              if UnverifiedProofData_isInside S geoPointInPolygonProof
              then mkPolygonProofs
                     (insidePolygonProofs (inPolygonProof this)
                        ++ [zkPointInPolygonProof])
                     (outsidePolygonProofs (inPolygonProof this))
              else mkPolygonProofs
                     (insidePolygonProofs (inPolygonProof this))
                     (outsidePolygonProofs (inPolygonProof this)
                        ++ [zkPointInPolygonProof]) in
            (mkProver (zkGeoPoint this) (integrationOracleProof this)
                      (exactGeolocationMetadataProof this)
                      recorded (allProfs this),
             Returned zkPointInPolygonProof)
        end
    end.

Definition attachMetadata (this : Prover) (metadata : string)
  : Prover * Outcome ZKExactGeolocationMetadataCircuitProof :=
  if isUndefined (integrationOracleProof this)
  then (this, Threw "In order to attach metadata to a ZKGeoPoint, it must be authenticated from an Integration Oracle. Currently, this is the only supported authentication source, but will be expanded in the future.")
  else
    let sha3_512_digest := SHA3_512_digest S metadata in
    match readProof (integrationOracleProof this) with
    | Threw m => (this, Threw m)
    | Returned rawProof =>
        match ExactGeolocationMetadataCircuit_attachMetadataToGeoPoint S
                rawProof sha3_512_digest with
        | Threw m => (this, Threw m)
        | Returned exactGeolocationMetadataProof' =>
            let created :=
              mkZKExactGeolocationMetadataCircuitProof
                (zkGeoPoint this) metadata exactGeolocationMetadataProof' in
            (mkProver (zkGeoPoint this) (integrationOracleProof this)
                      (Defined created)
                      (inPolygonProof this) (allProfs this),
             Returned created)
        end
    end.

(** *** Sessions: the calls made on one object, in order

    The methods that write a field of the object, and [exactGeoPoint];
    [inPolygons] is a run of [inPolygon] calls, and the two combining
    methods only read the recorded lists. *)

Inductive Call : Type :=
| CallAuthenticateFromIntegrationOracle
    (publicKey : ZKPublicKey S) (signature : ZKSignature S)
| CallInPolygon (polygon : ZKThreePointPolygon S)
| CallAttachMetadata (metadata : string)
| CallExactGeoPoint.

Inductive Reply : Type :=
| ReplyAuthenticate (r : Outcome ZKGeoPointProviderCircuitProof)
| ReplyInPolygon (r : Outcome ZKGeoPointInPolygonProof)
| ReplyAttachMetadata (r : Outcome ZKExactGeolocationMetadataCircuitProof)
| ReplyExactGeoPoint (r : Outcome ZKExactGeoPointCircuitProof).

Definition perform (this : Prover) (c : Call) : Prover * Reply :=
  match c with
  | CallAuthenticateFromIntegrationOracle publicKey signature =>
      let (this', r) := authenticateFromIntegrationOracle this publicKey signature in
      (this', ReplyAuthenticate r)
  | CallInPolygon polygon =>
      let (this', r) := inPolygon this polygon in (this', ReplyInPolygon r)
  | CallAttachMetadata metadata =>
      let (this', r) := attachMetadata this metadata in
      (this', ReplyAttachMetadata r)
  | CallExactGeoPoint => (this, ReplyExactGeoPoint (exactGeoPoint this))
  end.

Fixpoint session (this : Prover) (calls : list Call) : Prover * list Reply :=
  match calls with
  | [] => (this, [])
  | c :: rest =>
      let (this', r) := perform this c in
      let (final, rs) := session this' rest in
      (final, r :: rs)
  end.

(** [authenticateFromIntegrationOracle] has completed successfully when one
    of its calls returned. *)
Definition isCompletedAuthentication (r : Reply) : bool :=
  match r with
  | ReplyAuthenticate (Returned _) => true
  | _ => false
  end.

Definition authenticationCompleted (replies : list Reply) : bool :=
  existsb isCompletedAuthentication replies.

End Prover.

Arguments providerProof {S} z.
Arguments zkGeoPoint {S} p.
Arguments integrationOracleProof {S} p.
Arguments exactGeolocationMetadataProof {S} p.
Arguments inPolygonProof {S} p.
Arguments allProfs {S} p.

(** ** [ZKCoordinate]

    The class extends [ZKNumber], which is not among the sources: the
    constructor is parametric in what [super(value)] builds and in the
    [factor] it exposes. *)

Section ZKCoordinateClass.

Variables InputNumber ZKNumber : Type.
Variable ZKNumber_new : InputNumber -> ZKNumber.
Variable ZKNumber_factor : ZKNumber -> Z.
Variable Number_toString : Z -> string.

Definition MAX_FACTOR : Z := 10 ^ 7.

Definition ZKCoordinate_new (value : InputNumber) : Outcome ZKNumber :=
  let this := ZKNumber_new value in
  if ZKNumber_factor this >? MAX_FACTOR
  then Threw ("Invalid factor. The maximum factor is 7. The provided value is "
                ++ Number_toString (ZKNumber_factor this))
  else Returned this.

End ZKCoordinateClass.

(** Modelled from the spec: [ZKNumber] for "coordinate literals: decimal
    strings or numeric pairs convertible to (signed integer magnitude,
    factor)", with the "factor inferred from decimal digits after the
    point".  A literal is its sign, its integer part and its digits after
    the point. *)
Module DecimalZKNumber.
Record InputNumber : Type := mkInputNumber {
  isNegative : bool;
  integerPart : Z;
  fractionDigits : list Z
}.

Record ZKNumber : Type := mkZKNumber {
  raw_value : InputNumber;
  num_decimals : nat
}.

Definition new (value : InputNumber) : ZKNumber :=
  mkZKNumber value (List.length (fractionDigits value)).

Definition factor (n : ZKNumber) : Z := 10 ^ Z.of_nat (num_decimals n).

Definition scaled (n : ZKNumber) : Z :=
  let digits := fractionDigits (raw_value n) in
  let magnitude := fold_left (fun acc d => 10 * acc + d) digits
                             (integerPart (raw_value n)) in
  if isNegative (raw_value n) then - magnitude else magnitude.

Definition toString (z : Z) : string :=
  NilZero.string_of_int (Z.to_int z).

Definition ZKCoordinate (value : InputNumber) : Outcome ZKNumber :=
  ZKCoordinate_new InputNumber ZKNumber new factor toString value.
End DecimalZKNumber.

(** ** Inputs of the specification's scenarios

    Factor [10^7] throughout; coordinates are stored as [lat * 10^7] and
    [lon * 10^7]. *)

Definition geo (lat lon f : Z) : GeographicalPoint :=
  mkGeographicalPoint (Int64.of_Z lat) (Int64.of_Z lon) (Int64.of_Z f).

(** The point of the first scenario, [(1 * 10^7, 1 * 10^7)]. *)
Definition scenarioPoint : GeographicalPoint := geo 10000000 10000000 10000000.

(** The triangle [V1 = (0, 0)], [V2 = (10 * 10^7, 0)], [V3 = (0, 10 * 10^7)]. *)
Definition scenarioPolygon : ThreePointPolygon :=
  mkThreePointPolygon (geo 0 0 10000000)
                      (geo 100000000 0 10000000)
                      (geo 0 100000000 10000000).

Definition scenarioInside : NoncedGeographicalPoint :=
  mkNoncedGeographicalPoint scenarioPoint 42.

Definition scenarioOutside : NoncedGeographicalPoint :=
  mkNoncedGeographicalPoint (geo 100000000 100000000 10000000) 42.

(** [(0, 5 * 10^7)], on the edge from [V3] back to [V1]. *)
Definition scenarioOnEdge : NoncedGeographicalPoint :=
  mkNoncedGeographicalPoint (geo 0 50000000 10000000) 42.

(** The vertex [V2] itself. *)
Definition scenarioAtVertex : NoncedGeographicalPoint :=
  mkNoncedGeographicalPoint (geo 100000000 0 10000000) 42.

(** A point at factor [1] against a triangle at factor [10]. *)
Definition mixedFactorPoint : NoncedGeographicalPoint :=
  mkNoncedGeographicalPoint (geo 1 1 1) 42.

Definition mixedFactorPolygon : ThreePointPolygon :=
  mkThreePointPolygon (geo 0 0 10) (geo 10 0 10) (geo 0 10 10).

(** A latitude of 200 degrees against a triangle of valid corners, all at
    factor [1]. *)
Definition farPoint : NoncedGeographicalPoint :=
  mkNoncedGeographicalPoint (geo 200 0 1) 42.

Definition unitPolygon : ThreePointPolygon :=
  mkThreePointPolygon (geo 0 0 1) (geo 90 0 1) (geo 0 180 1).

(** A stand-in for the hash, used where a statement is run on concrete
    commitments: an injective-looking polynomial fold, reduced to the field. *)
Definition sampleHash (xs : list Field.t) : Field.t :=
  fold_left (fun acc x => (acc * 1000003 + x + 1) mod Field.ORDER) xs 7.

Definition provenInside (polygon coordinates : Field.t)
  : SelfProof CoordinateProofState :=
  mkSelfProof (mkCoordinateProofState polygon coordinates true) true.

Definition provenOutside (polygon coordinates : Field.t)
  : SelfProof CoordinateProofState :=
  mkSelfProof (mkCoordinateProofState polygon coordinates false) true.

Definition accumulated (inside outside coordinates : Field.t)
  : SelfProof CoordinatePolygonInclusionExclusionProof :=
  mkSelfProof
    (mkCoordinatePolygonInclusionExclusionProof inside outside coordinates) true.

(** A small proof system to run sessions on: a signature verifies when it is
    the key plus one, a polygon contains the point when its number is even,
    and every other circuit hands its input on. *)
Definition sampleProofSystem : ProofSystem :=
  mkProofSystem
    Z Z (Z * Z) Z string
    Z (Z * Z) bool (Z * Z) string
    (fun publicKey signature _ =>
       if signature =? publicKey + 1 then Returned publicKey
       else Threw "signature does not verify")
    (fun _ geoPoint => Returned geoPoint)
    (fun _ polygon => Returned (Z.even polygon))
    (fun providerProof => Returned providerProof)
    (fun _ digest => Returned digest)
    (fun metadata => metadata)
    (fun raw => raw).

Definition sampleCalls : list (Call sampleProofSystem) :=
  [CallInPolygon sampleProofSystem 4;
   CallAuthenticateFromIntegrationOracle sampleProofSystem 10 99;
   CallAttachMetadata sampleProofSystem "hello";
   CallExactGeoPoint sampleProofSystem].

(** The literals [500] and [0.12345678]. *)
Definition literal500 : DecimalZKNumber.InputNumber :=
  DecimalZKNumber.mkInputNumber false 500 [].

Definition literalEightDecimals : DecimalZKNumber.InputNumber :=
  DecimalZKNumber.mkInputNumber false 0 [1; 2; 3; 4; 5; 6; 7; 8].

(** Two inside proofs joined by [AND], lifted, and combined with a lifted
    outside proof: the shape [combinePointInPolygonProofs] builds. *)
Definition sampleRollup : Rollup :=
  Combined (Lifted (ViaAND (Given (provenInside 1 5)) (Given (provenInside 2 5))))
           (Lifted (Given (provenOutside 3 5))).

Definition authenticatedProver : Prover sampleProofSystem :=
  fst (authenticateFromIntegrationOracle sampleProofSystem
         (newProver sampleProofSystem (3, 4)) 10 11).

(** ** The remaining methods of the circuit file *)

Definition ThreePointPolygon_assertIsVerticesValid (polygon : ThreePointPolygon)
  : Circuit unit :=
  GeographicalPoint_assertIsValid (vertice1 polygon) ;;;
  GeographicalPoint_assertIsValid (vertice2 polygon) ;;;
  GeographicalPoint_assertIsValid (vertice3 polygon).

(** The body of the method is a TODO in the source: it asserts nothing. *)
Definition ThreePointPolygon_assertIsOrderingValid (polygon : ThreePointPolygon)
  : Circuit unit :=
  Ok tt.

Definition ThreePointPolygon_assertIsValid (polygon : ThreePointPolygon)
  : Circuit unit :=
  ThreePointPolygon_assertIsVerticesValid polygon ;;;
  ThreePointPolygon_assertIsOrderingValid polygon.

(** A value of the integer type as the library hands it out: its magnitude
    is an unsigned 64-bit number. *)
Definition Int64_wellFormed (v : Int64.t) : Prop :=
  0 <= Int64.magnitude v <= UInt64.MAXINT.

(** The ray-casting test in the specification's words: an edge [(V[j], V[i])]
    flips when [(yi > y) XOR (yj > y)] and
    [x < xi + (xj - xi) * (y - yi) / (yj - yi)], the division truncating
    toward zero, and never when it is horizontal; the result is the
    disjunction of the three edge memberships and of the parity of the three
    flips. *)
Definition specFlips (x y xi yi xj yj : Z) : bool :=
  xorb (y <? yi) (y <? yj)
  && negb (yj - yi =? 0)
  && (x <? xi + Z.quot ((xj - xi) * (y - yi)) (yj - yi)).

Definition specOnEdgeb (x y x1 y1 x2 y2 : Z) : bool :=
  (Z.min x1 x2 <=? x) && (x <=? Z.max x1 x2)
  && (Z.min y1 y2 <=? y) && (y <=? Z.max y1 y2)
  && ((x2 - x1) * (y - y1) =? (x - x1) * (y2 - y1)).

Definition edgeFlips (p : NoncedGeographicalPoint) (vi vj : GeographicalPoint)
  : bool :=
  specFlips (Int64.toZ (latitude (point p))) (Int64.toZ (longitude (point p)))
            (Int64.toZ (latitude vi)) (Int64.toZ (longitude vi))
            (Int64.toZ (latitude vj)) (Int64.toZ (longitude vj)).

Definition edgeHolds (p : NoncedGeographicalPoint) (v1 v2 : GeographicalPoint)
  : bool :=
  specOnEdgeb (Int64.toZ (latitude (point p))) (Int64.toZ (longitude (point p)))
              (Int64.toZ (latitude v1)) (Int64.toZ (longitude v1))
              (Int64.toZ (latitude v2)) (Int64.toZ (longitude v2)).

Definition specIsInside (p : NoncedGeographicalPoint) (polygon : ThreePointPolygon)
  : bool :=
  edgeHolds p (vertice1 polygon) (vertice2 polygon)
  || edgeHolds p (vertice2 polygon) (vertice3 polygon)
  || edgeHolds p (vertice3 polygon) (vertice1 polygon)
  || xorb (xorb (edgeFlips p (vertice1 polygon) (vertice3 polygon))
                (edgeFlips p (vertice2 polygon) (vertice1 polygon)))
          (edgeFlips p (vertice3 polygon) (vertice2 polygon)).

(** The triangle read from its second vertex on. *)
Definition rotated (polygon : ThreePointPolygon) : ThreePointPolygon :=
  mkThreePointPolygon (vertice2 polygon) (vertice3 polygon) (vertice1 polygon).

(** The point lies strictly outside the bounding box of the triangle. *)
Definition outsideBoundingBox
    (p : NoncedGeographicalPoint) (polygon : ThreePointPolygon) : Prop :=
  let x := Int64.toZ (latitude (point p)) in
  let y := Int64.toZ (longitude (point p)) in
  let x1 := Int64.toZ (latitude (vertice1 polygon)) in
  let y1 := Int64.toZ (longitude (vertice1 polygon)) in
  let x2 := Int64.toZ (latitude (vertice2 polygon)) in
  let y2 := Int64.toZ (longitude (vertice2 polygon)) in
  let x3 := Int64.toZ (latitude (vertice3 polygon)) in
  let y3 := Int64.toZ (longitude (vertice3 polygon)) in
  x < Z.min x1 (Z.min x2 x3) \/ Z.max x1 (Z.max x2 x3) < x \/
  y < Z.min y1 (Z.min y2 y3) \/ Z.max y1 (Z.max y2 y3) < y.

(** A failure that is a range check and nothing else. *)
Definition failsOnlyByRange {A : Type} (c : Circuit A) : Prop :=
  forall e, c = Fail e -> e = RangeCheckFailed.

(** The shape [combineProofs] rolls a list into: the first two proofs
    joined by [AND], then each further proof joined to the result. *)
Definition chainAND (first : SelfProof CoordinateProofState)
    (rest : list (SelfProof CoordinateProofState)) : Composition :=
  fold_left (fun combined proof => ViaAND combined (Given proof)) rest (Given first).

(** Two further proofs of the coordinates [5], the first of them an outside
    proof. *)
Definition sampleChain : list (SelfProof CoordinateProofState) :=
  [provenOutside 2 5; provenInside 3 5].

(** ** The remaining methods of the prover mixin *)

Section ProverCollections.

Variable S : ProofSystem.



(** The [AND] method of the proof wrapper and the rollup circuit live in
    other modules of the repository (proofs/ZKGeoPointInPolygonProof,
    zkprogram/private/GeoPointInOrOutOfPolygonCircuit); the two combining
    methods are parametric in them. *)
Variable ZKGeoPointInPolygonProof_AND :
  ZKGeoPointInPolygonProof S -> ZKGeoPointInPolygonProof S ->
  Outcome (ZKGeoPointInPolygonProof S).

Variable GeoPointInOrOutOfPolygonCircuitProof : Type.

Variable GeoPointInOrOutOfPolygonCircuit_fromPointInPolygonProofs :
  GeoPointInPolygonCircuitProof S -> GeoPointInPolygonCircuitProof S ->
  Outcome GeoPointInOrOutOfPolygonCircuitProof.

Definition combineProofs (proofs : list (ZKGeoPointInPolygonProof S))
  : Outcome (ZKGeoPointInPolygonProof S) :=
  if (List.length proofs <? 2)%nat
  then Threw "Cannot combine less than 2 proofs."
  else
    match proofs with
    | firstProof :: secondProof :: rest =>
        fold_left
          (fun combinedProof proof =>
             match combinedProof with
             | Returned combined => ZKGeoPointInPolygonProof_AND combined proof
             | Threw m => Threw m
             end)
          rest (ZKGeoPointInPolygonProof_AND firstProof secondProof)
    | _ => Threw "TypeError: Cannot read properties of undefined (reading 'AND')"
    end.

Record RolledUpZKGeoPointInPolygonCircuitProof : Type :=
  mkRolledUpZKGeoPointInPolygonCircuitProof {
  rolledUpFrom : list (ZKGeoPointInPolygonProof S);
  rolledUpProof : ZKGeoPointInPolygonProof S
}.

Record ZKGeoPointInOrOutOfPolygonCircuitProof : Type :=
  mkZKGeoPointInOrOutOfPolygonCircuitProof {
  inOrOutGeoPoint : GeoPoint S;
  insideRollUp : RolledUpZKGeoPointInPolygonCircuitProof;
  outsideRollUp : RolledUpZKGeoPointInPolygonCircuitProof;
  inOrOutRawProof : GeoPointInOrOutOfPolygonCircuitProof
}.

Definition combinePointInPolygonProofs (this : Prover S)
  : Outcome ZKGeoPointInOrOutOfPolygonCircuitProof :=
  if (List.length (insidePolygonProofs S (inPolygonProof this)) =? 0)%nat
  then Threw "Cannot combine proofs for a ZKGeoPoint that has not been proven to be inside of any polygons. It's requied to have both, inside and outside polygon proofs. If you only have one set, you can combine them together with .AND and/or .OR methods."
  else if (List.length (outsidePolygonProofs S (inPolygonProof this)) =? 0)%nat
  then Threw "Cannot combine proofs for a ZKGeoPoint that has not been proven to be outside of any polygons. It's requied to have both, inside and outside polygon proofs. If you only have one set, you can combine them together with .AND and/or .OR methods."
  else
    let insidePolygonProofs' := insidePolygonProofs S (inPolygonProof this) in
    let outsidePolygonProofs' := outsidePolygonProofs S (inPolygonProof this) in
    let rolledUpInside :=
      match insidePolygonProofs' with
      | [only] => Returned only
      | _ => combineProofs insidePolygonProofs'
      end in
    match rolledUpInside with
    | Threw m => Threw m
    | Returned rolledUpInsidePolygonProofs =>
        let rolledUpOutside :=
          match outsidePolygonProofs' with
          | [only] => Returned only
          | _ => combineProofs outsidePolygonProofs'
          end in
        match rolledUpOutside with
        | Threw m => Threw m
        | Returned rolledUpOutsidePolygonProofs =>
            let insideRollUpDTO :=
              mkRolledUpZKGeoPointInPolygonCircuitProof
                insidePolygonProofs' rolledUpInsidePolygonProofs in
            let outsideRollUpDTO :=
              mkRolledUpZKGeoPointInPolygonCircuitProof
                outsidePolygonProofs' rolledUpOutsidePolygonProofs in
            match GeoPointInOrOutOfPolygonCircuit_fromPointInPolygonProofs
                    (inPolygonRawProof S rolledUpInsidePolygonProofs)
                    (inPolygonRawProof S rolledUpOutsidePolygonProofs) with
            | Threw m => Threw m
            | Returned proof =>
                Returned (mkZKGeoPointInOrOutOfPolygonCircuitProof
                            (zkGeoPoint this) insideRollUpDTO outsideRollUpDTO
                            proof)
            end
        end
    end.

End ProverCollections.

(** The replies of a session, read back. *)
Definition replyThrew {S : ProofSystem} (r : Reply S) : bool :=
  match r with
  | ReplyAuthenticate _ (Threw _) | ReplyInPolygon _ (Threw _)
  | ReplyAttachMetadata _ (Threw _) | ReplyExactGeoPoint _ (Threw _) => true
  | _ => false
  end.

(** The in-polygon proofs that the calls of a session returned, in call
    order, and those of them on a given side. *)
Fixpoint returnedInPolygonProofs {S : ProofSystem} (replies : list (Reply S))
  : list (ZKGeoPointInPolygonProof S) :=
  match replies with
  | [] => []
  | ReplyInPolygon _ (Returned proof) :: rest =>
      proof :: returnedInPolygonProofs rest
  | _ :: rest => returnedInPolygonProofs rest
  end.

Definition provesInside {S : ProofSystem} (proof : ZKGeoPointInPolygonProof S)
  : bool :=
  UnverifiedProofData_isInside S (inPolygonRawProof S proof).

(** The provider proofs that the authentications of a session returned, in
    call order. *)
Fixpoint returnedAuthentications {S : ProofSystem} (replies : list (Reply S))
  : list (ZKGeoPointProviderCircuitProof S) :=
  match replies with
  | [] => []
  | ReplyAuthenticate _ (Returned proof) :: rest =>
      proof :: returnedAuthentications rest
  | _ :: rest => returnedAuthentications rest
  end.

(** The field as the last returned authentication leaves it. *)
Definition lastAuthentication {S : ProofSystem}
    (start : JsSlot (ZKGeoPointProviderCircuitProof S))
    (returned : list (ZKGeoPointProviderCircuitProof S))
  : JsSlot (ZKGeoPointProviderCircuitProof S) :=
  fold_left (fun _ proof => Defined proof) returned start.

(** A latitude of 90.9999999 degrees with a stored longitude of 180, at
    factor [10^7]; and a point at the factor of [mixedFactorPolygon]. *)
Definition almostNinetyOne : GeographicalPoint := geo 909999999 180 10000000.

Definition sameFactorPoint : NoncedGeographicalPoint :=
  mkNoncedGeographicalPoint (geo 1 1 10) 42.

(** The second triangle of the fourth scenario:
    [V1 = (-1 * 10^7, -1 * 10^7)], [V2 = (-1 * 10^7, 2 * 10^7)],
    [V3 = (2 * 10^7, -1 * 10^7)]. *)
Definition secondScenarioPolygon : ThreePointPolygon :=
  mkThreePointPolygon (geo (-10000000) (-10000000) 10000000)
                      (geo (-10000000) 20000000 10000000)
                      (geo 20000000 (-10000000) 10000000).

(** * Properties *)

(** ** The monad and the integer types *)

Lemma bind_Ok {A B : Type} (c : Circuit A) (k : A -> Circuit B) (b : B) :
  bind c k = Ok b -> exists a, c = Ok a /\ k a = Ok b.
Proof.
  destruct c as [a | e]; simpl; intros H.
  - exists a. split; [reflexivity | exact H].
  - discriminate H.
Qed.

Lemma assertTrue_Ok (b : bool) (u : unit) : assertTrue b = Ok u -> b = true.
Proof. destruct b; simpl; [reflexivity | discriminate]. Qed.

Lemma verify_Ok {A : Type} (p : SelfProof A) (u : unit) :
  verify p = Ok u -> verifies p = true.
Proof. unfold verify. destruct (verifies p); [reflexivity | discriminate]. Qed.

Lemma Int64_toZ_of_Z (v : Z) : Int64.toZ (Int64.of_Z v) = v.
Proof.
  unfold Int64.toZ, Int64.of_Z.
  cbn [Int64.sgn Int64.magnitude].
  destruct (Z.ltb_spec v 0); cbn [Sign.value]; lia.
Qed.

Lemma Int64_fromZ_Ok (v : Z) :
  Z.abs v <= UInt64.MAXINT -> Int64.fromZ v = Ok (Int64.of_Z v).
Proof.
  intros H. unfold Int64.fromZ, Int64.of_Z.
  destruct (Z.leb_spec (Z.abs v) UInt64.MAXINT); [reflexivity | lia].
Qed.

Lemma Int64_fromZ_inv (v : Z) (r : Int64.t) :
  Int64.fromZ v = Ok r -> r = Int64.of_Z v.
Proof.
  unfold Int64.fromZ, Int64.of_Z.
  destruct (Z.abs v <=? UInt64.MAXINT); [| discriminate].
  intros H. injection H as <-. reflexivity.
Qed.

Lemma Int64_toZ_abs (x : Int64.t) :
  0 <= Int64.magnitude x -> Z.abs (Int64.toZ x) = Int64.magnitude x.
Proof.
  unfold Int64.toZ. destruct (Int64.sgn x); cbn [Sign.value]; lia.
Qed.

Lemma withinBudget_toZ (x : Int64.t) :
  withinBudget x -> - 2 ^ 31 < Int64.toZ x < 2 ^ 31.
Proof.
  unfold withinBudget. intros H.
  pose proof (Int64_toZ_abs x (proj1 H)). lia.
Qed.

Lemma Int64_equal_of_Z (a b : Z) :
  Int64.equal (Int64.of_Z a) (Int64.of_Z b) = (a =? b).
Proof.
  unfold Int64.equal, Int64.of_Z.
  cbn [Int64.sgn Int64.magnitude].
  destruct (Z.ltb_spec a 0), (Z.ltb_spec b 0), (Z.eqb_spec a b),
    (Z.eqb_spec (Z.abs a) (Z.abs b)); cbn [Sign.eqb andb];
    try reflexivity; lia.
Qed.

Lemma Int64_of_Z_magnitude (v : Z) : Int64.magnitude (Int64.of_Z v) = Z.abs v.
Proof. reflexivity. Qed.

(** ** Coordinate validation ([GeographicalPoint.assertIsValid]) *)

(** What the three assertions accept: the latitude is scaled down by the
    factor, the longitude is compared as stored. *)
Lemma GeographicalPoint_assertIsValid_accepts (g : GeographicalPoint) :
  GeographicalPoint_assertIsValid g = Ok tt <->
  Int64.magnitude (factor g) <> 0 /\
  Int64.magnitude (latitude g) / Int64.magnitude (factor g) <= 90 /\
  Int64.magnitude (longitude g) <= 180 /\
  Int64.magnitude (factor g) <= 10 ^ 7.
Proof.
  unfold GeographicalPoint_assertIsValid, Int64.div, UInt64.divMod,
    UInt64.assertLessThanOrEqual, assertTrue.
  destruct (Z.eqb_spec (Int64.magnitude (factor g)) 0) as [E | E];
    cbn [bind fst Int64.magnitude].
  - split; [discriminate | intros [H _]; contradiction].
  - destruct (Z.leb_spec
                (Int64.magnitude (latitude g) / Int64.magnitude (factor g)) 90);
      cbn [bind].
    + destruct (Z.leb_spec (Int64.magnitude (longitude g)) 180); cbn [bind].
      * destruct (Z.leb_spec (Int64.magnitude (factor g)) (10 ^ 7)).
        -- split; [intros _; repeat split; assumption | reflexivity].
        -- split; [discriminate | intros (_ & _ & _ & H2); lia].
      * split; [discriminate | intros (_ & _ & H2 & _); lia].
    + split; [discriminate | intros (_ & H2 & _); lia].
Qed.

(** C4, as the code behaves: the point [(1 * 10^7, 1 * 10^7)] at factor
    [10^7], one degree of latitude and of longitude, lies in the coordinate
    domain of the specification ([|lat|/10^f <= 90], [|lon|/10^f <= 180],
    [f <= 7]), and [assertIsValid] rejects it: the longitude is compared with
    180 without being scaled down by the factor. *)
Theorem GeographicalPoint_assertIsValid_longitude_unscaled :
  specCoordinateDomain scenarioPoint /\
  GeographicalPoint_assertIsValid scenarioPoint = Fail AssertionFailed /\
  GeographicalPoint_assertIsValid
    (mkGeographicalPoint (Int64.of_Z 10000000) (Int64.of_Z 180)
                         (Int64.of_Z 10000000)) = Ok tt.
Proof.
  split; [| split]; try reflexivity.
  exists 7. unfold scenarioPoint; simpl.
  rewrite !Int64_toZ_of_Z. lia.
Qed.

(** ** Arithmetic inside the overflow budget *)

Lemma Int64_sub_Ok (x y : Int64.t) :
  Z.abs (Int64.toZ x - Int64.toZ y) <= UInt64.MAXINT ->
  Int64.sub x y = Ok (Int64.of_Z (Int64.toZ x - Int64.toZ y)).
Proof. apply Int64_fromZ_Ok. Qed.

Lemma Int64_mul_Ok (x y : Int64.t) :
  Z.abs (Int64.toZ x * Int64.toZ y) <= UInt64.MAXINT ->
  Int64.mul x y = Ok (Int64.of_Z (Int64.toZ x * Int64.toZ y)).
Proof. apply Int64_fromZ_Ok. Qed.

Lemma Int64_add_Ok (x y : Int64.t) :
  Z.abs (Int64.toZ x + Int64.toZ y) <= UInt64.MAXINT ->
  Int64.add x y = Ok (Int64.of_Z (Int64.toZ x + Int64.toZ y)).
Proof. apply Int64_fromZ_Ok. Qed.

Lemma Int64_div_Ok (n d : Int64.t) :
  Int64.magnitude d <> 0 ->
  Int64.div n d =
  Ok (Int64.mk (Int64.magnitude n / Int64.magnitude d)
               (Sign.mul (Int64.sgn n) (Int64.sgn d))).
Proof.
  intros H. unfold Int64.div, UInt64.divMod.
  destruct (Z.eqb_spec (Int64.magnitude d) 0); [contradiction | reflexivity].
Qed.

Lemma Int64_div_never_by_zero_when_nonzero (n d : Int64.t) :
  Int64.magnitude d <> 0 -> Int64.div n d <> Fail DivisionByZero.
Proof. intros H. rewrite (Int64_div_Ok n d H). discriminate. Qed.

Lemma quotient_magnitude_le (n d : Z) (s : Sign.t) :
  0 <= n -> 0 < d -> Z.abs (Int64.toZ (Int64.mk (n / d) s)) <= n.
Proof.
  intros Hn Hd.
  assert (0 <= n / d) by (apply Z.div_pos; lia).
  assert (n / d <= n) by (apply Z.div_le_upper_bound; nia).
  unfold Int64.toZ; cbn [Int64.sgn Int64.magnitude].
  destruct s; cbn [Sign.value]; lia.
Qed.

Lemma MAXINT_value : UInt64.MAXINT = 18446744073709551615.
Proof. reflexivity. Qed.

Lemma difference_in_budget (a b : Z) :
  - 2 ^ 31 < a < 2 ^ 31 -> - 2 ^ 31 < b < 2 ^ 31 ->
  Z.abs (a - b) <= 2 ^ 32 - 2.
Proof. lia. Qed.

Lemma product_in_budget (a b : Z) :
  Z.abs a <= 2 ^ 32 - 2 -> Z.abs b <= 2 ^ 32 - 2 ->
  Z.abs (a * b) <= 2 ^ 64 - 2 ^ 34 + 4.
Proof.
  intros Ha Hb. rewrite Z.abs_mul.
  assert (0 <= Z.abs a) by lia. assert (0 <= Z.abs b) by lia.
  change (2 ^ 64 - 2 ^ 34 + 4) with ((2 ^ 32 - 2) * (2 ^ 32 - 2)).
  apply Z.mul_le_mono_nonneg; lia.
Qed.

(** ** Edge membership ([isPointOnEdgeProvable]) *)

(** Inside the budget the circuit computes exactly the edge membership of
    the specification. *)
Lemma isPointOnEdgeProvable_spec
    (p : NoncedGeographicalPoint) (v1 v2 : GeographicalPoint) :
  pointWithinBudget (point p) -> pointWithinBudget v1 -> pointWithinBudget v2 ->
  exists b, isPointOnEdgeProvable p v1 v2 = Ok b /\
            (b = true <-> pointOnEdge p v1 v2).
Proof.
  intros [Hx Hy] [Hx1 Hy1] [Hx2 Hy2].
  apply withinBudget_toZ in Hx, Hy, Hx1, Hy1, Hx2, Hy2.
  unfold isPointOnEdgeProvable, pointOnEdge, specOnEdge.
  set (x := Int64.toZ (latitude (point p))) in *.
  set (y := Int64.toZ (longitude (point p))) in *.
  set (x1 := Int64.toZ (latitude v1)) in *.
  set (y1 := Int64.toZ (longitude v1)) in *.
  set (x2 := Int64.toZ (latitude v2)) in *.
  set (y2 := Int64.toZ (longitude v2)) in *.
  pose proof (difference_in_budget x2 x1 Hx2 Hx1) as D1.
  pose proof (difference_in_budget x x1 Hx Hx1) as D2.
  pose proof (difference_in_budget y2 y1 Hy2 Hy1) as D3.
  pose proof (difference_in_budget y y1 Hy Hy1) as D4.
  pose proof (product_in_budget _ _ D1 D4) as P1.
  pose proof (product_in_budget _ _ D2 D3) as P2.
  pose proof MAXINT_value as M.
  rewrite !Int64_sub_Ok by (fold x x1 x2 y y1 y2; lia).
  cbn [bind]. fold x x1 x2 y y1 y2.
  rewrite !Int64_mul_Ok by (rewrite !Int64_toZ_of_Z; lia).
  cbn [bind]. rewrite !Int64_toZ_of_Z, Int64_equal_of_Z.
  eexists. split; [reflexivity |].
  unfold Int64Prover.provableIsInt64XGreaterThanY,
    Int64Prover.provableIsInt64XLessThanOrEqualY.
  fold x x1 x2 y y1 y2.
  rewrite !andb_true_iff.
  destruct (Z.ltb_spec x2 x1), (Z.ltb_spec y2 y1);
    fold x x1 x2 y y1 y2;
    rewrite !Z.leb_le, Z.eqb_eq; lia.
Qed.

(** On any input, a check that returns has computed exact differences and
    products, and so returns the edge membership of the specification. *)
Lemma isPointOnEdgeProvable_Ok_spec
    (p : NoncedGeographicalPoint) (v1 v2 : GeographicalPoint) (b : bool) :
  isPointOnEdgeProvable p v1 v2 = Ok b -> (b = true <-> pointOnEdge p v1 v2).
Proof.
  intros H. unfold isPointOnEdgeProvable in H.
  apply bind_Ok in H as (d1 & H1 & H). apply Int64_fromZ_inv in H1. subst d1.
  apply bind_Ok in H as (d2 & H2 & H). apply Int64_fromZ_inv in H2. subst d2.
  apply bind_Ok in H as (d3 & H3 & H). apply Int64_fromZ_inv in H3. subst d3.
  apply bind_Ok in H as (d4 & H4 & H). apply Int64_fromZ_inv in H4. subst d4.
  apply bind_Ok in H as (m1 & H5 & H). apply Int64_fromZ_inv in H5. subst m1.
  apply bind_Ok in H as (m2 & H6 & H). apply Int64_fromZ_inv in H6. subst m2.
  injection H as <-.
  rewrite !Int64_toZ_of_Z, Int64_equal_of_Z.
  unfold pointOnEdge, specOnEdge,
    Int64Prover.provableIsInt64XGreaterThanY,
    Int64Prover.provableIsInt64XLessThanOrEqualY.
  set (x := Int64.toZ (latitude (point p))).
  set (y := Int64.toZ (longitude (point p))).
  set (x1 := Int64.toZ (latitude v1)).
  set (y1 := Int64.toZ (longitude v1)).
  set (x2 := Int64.toZ (latitude v2)).
  set (y2 := Int64.toZ (longitude v2)).
  rewrite !andb_true_iff.
  destruct (Z.ltb_spec x2 x1), (Z.ltb_spec y2 y1);
    fold x x1 x2 y y1 y2;
    rewrite !Z.leb_le, Z.eqb_eq; lia.
Qed.

Lemma pointAtVertex_onEdge_start
    (p : NoncedGeographicalPoint) (v1 v2 : GeographicalPoint) :
  pointAtVertex p v1 -> pointOnEdge p v1 v2.
Proof.
  unfold pointAtVertex, pointOnEdge, specOnEdge. intros [-> ->].
  repeat split; try lia.
Qed.

Lemma pointAtVertex_onEdge_end
    (p : NoncedGeographicalPoint) (v1 v2 : GeographicalPoint) :
  pointAtVertex p v2 -> pointOnEdge p v1 v2.
Proof.
  unfold pointAtVertex, pointOnEdge, specOnEdge. intros [-> ->].
  repeat split; try lia.
Qed.

(** ** The ray-casting loop *)

Lemma Int64_of_Z_magnitude_nonzero (d : Z) :
  d <> 0 -> Int64.magnitude (Int64.of_Z d) <> 0.
Proof. rewrite Int64_of_Z_magnitude. lia. Qed.

(** The divisor handed to [div] in a pass is [1] on a horizontal edge and the
    non-zero difference [yj - yi] otherwise. *)
Lemma rayCastPass_within_budget
    (x y : Int64.t) (vi vj : GeographicalPoint) (inside : bool) :
  withinBudget x -> withinBudget y ->
  pointWithinBudget vi -> pointWithinBudget vj ->
  exists pass,
    rayCastPass x y vi vj inside = Ok pass /\
    Int64.magnitude (passDenominator pass) <> 0 /\
    passIsHorizontalEdge pass
      = (Int64.toZ (longitude vj) - Int64.toZ (longitude vi) =? 0) /\
    passDenominator pass
      = (if passIsHorizontalEdge pass then Int64.one
         else Int64.of_Z (Int64.toZ (longitude vj) - Int64.toZ (longitude vi))) /\
    passJointCondition2 pass
      = (if passIsHorizontalEdge pass then false
         else Int64Prover.provableIsInt64XLessThanY x (passResult pass)) /\
    passIsIntersect pass
      = (passJointCondition1 pass && passJointCondition2 pass) /\
    passInside pass
      = (if passIsIntersect pass then negb inside else inside).
Proof.
  intros Hx Hy [Hxi Hyi] [Hxj Hyj].
  pose proof (proj1 Hxi) as Hxi0.
  apply withinBudget_toZ in Hx, Hy, Hxi, Hyi, Hxj, Hyj.
  unfold rayCastPass.
  set (xi := Int64.toZ (latitude vi)) in *.
  set (yi := Int64.toZ (longitude vi)) in *.
  set (xj := Int64.toZ (latitude vj)) in *.
  set (yj := Int64.toZ (longitude vj)) in *.
  set (py := Int64.toZ y) in *.
  pose proof (difference_in_budget xj xi Hxj Hxi) as D1.
  pose proof (difference_in_budget py yi Hy Hyi) as D2.
  pose proof (difference_in_budget yj yi Hyj Hyi) as D3.
  pose proof (product_in_budget _ _ D1 D2) as P1.
  pose proof MAXINT_value as M.
  rewrite !Int64_sub_Ok by (fold xi yi xj yj py; lia).
  cbn [bind]. fold xi yi xj yj py.
  assert (Hcheck : UInt64.mul (Int64.magnitude (Int64.of_Z (xj - xi)))
                              (Int64.magnitude (Int64.of_Z (py - yi)))
                   = Ok (Z.abs (xj - xi) * Z.abs (py - yi))).
  { rewrite !Int64_of_Z_magnitude. unfold UInt64.mul, UInt64.check.
    rewrite Z.abs_mul in P1.
    assert (0 <= Z.abs (xj - xi) * Z.abs (py - yi))
      by (apply Z.mul_nonneg_nonneg; lia).
    destruct (Z.leb_spec 0 (Z.abs (xj - xi) * Z.abs (py - yi))); [| lia].
    destruct (Z.leb_spec (Z.abs (xj - xi) * Z.abs (py - yi)) UInt64.MAXINT);
      [reflexivity | lia]. }
  rewrite Hcheck. cbn [bind].
  rewrite Int64_mul_Ok by (rewrite !Int64_toZ_of_Z; lia).
  cbn [bind]. rewrite !Int64_toZ_of_Z.
  unfold Int64Prover.provableIsInt64XEqualToZero. rewrite Int64_toZ_of_Z.
  set (n := Int64.of_Z ((xj - xi) * (py - yi))).
  assert (Hn : Int64.magnitude n = Z.abs ((xj - xi) * (py - yi)))
    by reflexivity.
  assert (Hdiv : forall d, 0 < Int64.magnitude d ->
            exists q, Int64.div n d = Ok q /\
                      Z.abs (Int64.toZ q) <= Int64.magnitude n).
  { intros d Hd. rewrite Int64_div_Ok by lia. eexists. split; [reflexivity |].
    apply quotient_magnitude_le; [rewrite Hn; lia | exact Hd]. }
  destruct (Z.eqb_spec (yj - yi) 0) as [E | E].
  - destruct (Hdiv Int64.one) as (q & -> & Hq); [reflexivity |].
    cbn [bind].
    rewrite Int64_add_Ok by (fold xi; lia).
    cbn [bind]. eexists. split; [reflexivity |].
    cbn [passDenominator passIsHorizontalEdge passJointCondition1
         passJointCondition2 passIsIntersect passInside passResult].
    rewrite andb_false_r.
    repeat split; try reflexivity. discriminate.
  - assert (Hd : 0 < Int64.magnitude (Int64.of_Z (yj - yi)))
      by (rewrite Int64_of_Z_magnitude; lia).
    destruct (Hdiv _ Hd) as (q & -> & Hq).
    cbn [bind].
    rewrite Int64_add_Ok by (fold xi; lia).
    cbn [bind]. eexists. split; [reflexivity |].
    cbn [passDenominator passIsHorizontalEdge passJointCondition1
         passJointCondition2 passIsIntersect passInside passResult].
    repeat split; try reflexivity; try lia.
    destruct (_ && _); reflexivity.
Qed.

Lemma rayCastLoop_within_budget
    (vertices : list GeographicalPoint) (dflt : GeographicalPoint)
    (x y : Int64.t) :
  withinBudget x -> withinBudget y ->
  pointWithinBudget dflt -> Forall pointWithinBudget vertices ->
  forall (remaining i j : nat) (inside : bool),
    succeeds (rayCastLoop vertices dflt x y remaining i j inside).
Proof.
  intros Hx Hy Hd Hv.
  assert (Hnth : forall k, pointWithinBudget (nth k vertices dflt)).
  { intros k. destruct (nth_in_or_default k vertices dflt) as [Hin | ->].
    - rewrite Forall_forall in Hv. apply Hv, Hin.
    - exact Hd. }
  induction remaining as [| remaining IH]; intros i j inside.
  - exists inside. reflexivity.
  - cbn [rayCastLoop].
    destruct (rayCastPass_within_budget x y _ _ inside Hx Hy (Hnth i) (Hnth j))
      as (pass & -> & _).
    cbn [bind]. apply IH.
Qed.

Lemma Int64_fromZ_not_DivisionByZero (v : Z) :
  Int64.fromZ v <> Fail DivisionByZero.
Proof.
  unfold Int64.fromZ. destruct (Z.abs v <=? UInt64.MAXINT); discriminate.
Qed.

Lemma UInt64_mul_not_DivisionByZero (a b : Z) :
  UInt64.mul a b <> Fail DivisionByZero.
Proof.
  unfold UInt64.mul, UInt64.check.
  destruct ((0 <=? a * b) && (a * b <=? UInt64.MAXINT)); discriminate.
Qed.

Lemma Int64_toZ_nonzero_magnitude (d : Int64.t) :
  Int64.toZ d <> 0 -> Int64.magnitude d <> 0.
Proof.
  unfold Int64.toZ. intros H E. apply H. rewrite E. apply Z.mul_0_r.
Qed.

(** On every input, in or out of the budget and whatever the edge, no pass
    of the loop stops at a division by zero. *)
Lemma rayCastPass_never_divides_by_zero
    (x y : Int64.t) (vi vj : GeographicalPoint) (inside : bool) :
  rayCastPass x y vi vj inside <> Fail DivisionByZero.
Proof.
  unfold rayCastPass.
  destruct (Int64.sub (latitude vj) (latitude vi)) as [l | e] eqn:El;
    [| intros H; cbn in H; subst; eapply Int64_fromZ_not_DivisionByZero;
       injection H as <-; exact El].
  destruct (Int64.sub y (longitude vi)) as [r | e] eqn:Er;
    [| intros H; cbn in H; eapply Int64_fromZ_not_DivisionByZero;
       injection H as <-; exact Er].
  cbn [bind].
  destruct (UInt64.mul (Int64.magnitude l) (Int64.magnitude r)) as [m | e] eqn:Em;
    [| intros H; cbn in H; eapply UInt64_mul_not_DivisionByZero;
       injection H as <-; exact Em].
  cbn [bind].
  destruct (Int64.mul l r) as [n | e] eqn:En;
    [| intros H; cbn in H; eapply Int64_fromZ_not_DivisionByZero;
       injection H as <-; exact En].
  cbn [bind].
  destruct (Int64.sub (longitude vj) (longitude vi)) as [d | e] eqn:Ed;
    [| intros H; cbn in H; eapply Int64_fromZ_not_DivisionByZero;
       injection H as <-; exact Ed].
  cbn [bind].
  unfold Int64Prover.provableIsInt64XEqualToZero.
  assert (Hden : Int64.magnitude
                   (if Int64.toZ d =? 0 then Int64.one else d) <> 0).
  { destruct (Z.eqb_spec (Int64.toZ d) 0) as [E | E].
    - discriminate.
    - apply Int64_toZ_nonzero_magnitude, E. }
  rewrite (Int64_div_Ok n _ Hden). cbn [bind].
  match goal with
  | |- context [Int64.add ?a ?b] =>
      destruct (Int64.add a b) as [s | e] eqn:Es;
        [| intros H; cbn in H; eapply Int64_fromZ_not_DivisionByZero;
           injection H as <-; exact Es]
  end.
  cbn [bind]. discriminate.
Qed.

(** Inside the overflow budget the predicate returns. *)
Lemma isPointIn3PointPolygon_within_budget
    (p : NoncedGeographicalPoint) (polygon : ThreePointPolygon) :
  inputsWithinBudget p polygon -> succeeds (isPointIn3PointPolygon p polygon).
Proof.
  intros (Hp & H1 & H2 & H3). unfold isPointIn3PointPolygon.
  destruct (isPointOnEdgeProvable_spec p _ _ Hp H1 H2) as (b1 & -> & _).
  destruct (isPointOnEdgeProvable_spec p _ _ Hp H2 H3) as (b2 & -> & _).
  destruct (isPointOnEdgeProvable_spec p _ _ Hp H3 H1) as (b3 & -> & _).
  cbn [bind].
  destruct (rayCastLoop_within_budget
              [vertice1 polygon; vertice2 polygon; vertice3 polygon]
              (vertice1 polygon) (latitude (point p)) (longitude (point p))
              (proj1 Hp) (proj2 Hp) H1
              (Forall_cons _ H1 (Forall_cons _ H2 (Forall_cons _ H3 (Forall_nil _))))
              (List.length [vertice1 polygon; vertice2 polygon; vertice3 polygon])
              0%nat
              (List.length [vertice1 polygon; vertice2 polygon; vertice3 polygon] - 1)%nat
              false) as (casted & ->).
  cbn [bind]. eexists. reflexivity.
Qed.

(** C5: every point on one of the three edges of the triangle (inside the
    bounding box of the edge and exactly collinear with it), and every point
    at a vertex, is classified inside by [isPointIn3PointPolygon], whatever
    the ray-casting loop has accumulated: on no input does the predicate
    return [false] for such a point, and inside the overflow budget it
    returns [true]. *)
Theorem isPointIn3PointPolygon_on_edge_is_inside
    (p : NoncedGeographicalPoint) (polygon : ThreePointPolygon) :
  pointOnEdge p (vertice1 polygon) (vertice2 polygon) \/
  pointOnEdge p (vertice2 polygon) (vertice3 polygon) \/
  pointOnEdge p (vertice3 polygon) (vertice1 polygon) \/
  pointAtVertex p (vertice1 polygon) \/
  pointAtVertex p (vertice2 polygon) \/
  pointAtVertex p (vertice3 polygon) ->
  (forall r, isPointIn3PointPolygon p polygon = Ok r -> r = true) /\
  (inputsWithinBudget p polygon -> isPointIn3PointPolygon p polygon = Ok true).
Proof.
  intros Hon.
  assert (Hedge : pointOnEdge p (vertice1 polygon) (vertice2 polygon) \/
                  pointOnEdge p (vertice2 polygon) (vertice3 polygon) \/
                  pointOnEdge p (vertice3 polygon) (vertice1 polygon)).
  { destruct Hon as [H | [H | [H | [H | [H | H]]]]]; auto.
    - left. apply pointAtVertex_onEdge_start, H.
    - right; left. apply pointAtVertex_onEdge_start, H.
    - right; right. apply pointAtVertex_onEdge_start, H. }
  assert (Hany : forall r, isPointIn3PointPolygon p polygon = Ok r -> r = true).
  { intros r H. unfold isPointIn3PointPolygon in H.
    apply bind_Ok in H as (b1 & E1 & H). apply isPointOnEdgeProvable_Ok_spec in E1.
    apply bind_Ok in H as (b2 & E2 & H). apply isPointOnEdgeProvable_Ok_spec in E2.
    apply bind_Ok in H as (b3 & E3 & H). apply isPointOnEdgeProvable_Ok_spec in E3.
    apply bind_Ok in H as (casted & _ & H).
    injection H as <-.
    assert (Hb : b1 || b2 || b3 = true) by (rewrite !orb_true_iff; tauto).
    rewrite Hb. reflexivity. }
  split; [exact Hany |].
  intros B.
  destruct (isPointIn3PointPolygon_within_budget p polygon B) as (r & Hr).
  rewrite Hr. f_equal. apply Hany, Hr.
Qed.

(** C6: in a pass of the ray-casting loop over a horizontal edge
    ([yj - yi = 0]) the divisor handed to [div] is [1], so the pass does not
    stop at a division by zero, the flip condition is forced to [false], and
    the [inside] accumulator leaves the pass as it entered it; inside the
    overflow budget the pass does return. *)
Theorem rayCastPass_horizontal_edge_never_flips
    (x y : Int64.t) (vi vj : GeographicalPoint) (inside : bool) :
  Int64.toZ (longitude vj) - Int64.toZ (longitude vi) = 0 ->
  rayCastPass x y vi vj inside <> Fail DivisionByZero /\
  (forall pass, rayCastPass x y vi vj inside = Ok pass ->
     passIsHorizontalEdge pass = true /\
     passDenominator pass = Int64.one /\
     passJointCondition2 pass = false /\
     passIsIntersect pass = false /\
     passInside pass = inside) /\
  (withinBudget x -> withinBudget y ->
   pointWithinBudget vi -> pointWithinBudget vj ->
   succeeds (rayCastPass x y vi vj inside)).
Proof.
  intros E. split; [apply rayCastPass_never_divides_by_zero |]. split.
  - intros pass H. unfold rayCastPass in H.
    apply bind_Ok in H as (l & _ & H).
    apply bind_Ok in H as (r & _ & H).
    apply bind_Ok in H as (m & _ & H).
    apply bind_Ok in H as (n & _ & H).
    apply bind_Ok in H as (d & Hd & H).
    unfold Int64.sub in Hd. rewrite E in Hd. cbv in Hd.
    injection Hd as <-.
    apply bind_Ok in H as (q & _ & H).
    apply bind_Ok in H as (s & _ & H).
    injection H as <-.
    cbn [passDenominator passIsHorizontalEdge passJointCondition1
         passJointCondition2 passIsIntersect passInside passResult].
    change (Int64Prover.provableIsInt64XEqualToZero
              {| Int64.magnitude := 0; Int64.sgn := Sign.one |}) with true.
    cbn iota. rewrite andb_false_r. repeat split; reflexivity.
  - intros Hx Hy Hvi Hvj.
    destruct (rayCastPass_within_budget x y vi vj inside Hx Hy Hvi Hvj)
      as (pass & Hpass & _).
    exists pass. exact Hpass.
Qed.

(** The scenarios of the specification, run through the predicate. *)
Example scenario_1_inside :
  isPointIn3PointPolygon scenarioInside scenarioPolygon = Ok true.
Proof. vm_compute. reflexivity. Qed.

Example scenario_2_outside :
  isPointIn3PointPolygon scenarioOutside scenarioPolygon = Ok false.
Proof. vm_compute. reflexivity. Qed.

Example scenario_3_on_edge :
  isPointIn3PointPolygon scenarioOnEdge scenarioPolygon = Ok true.
Proof. vm_compute. reflexivity. Qed.

(** At the vertex [V2] the loop alone leaves the accumulator at [false]:
    the point is inside by edge membership only. *)
Example vertex_ray_cast_alone :
  rayCastLoop [vertice1 scenarioPolygon; vertice2 scenarioPolygon;
               vertice3 scenarioPolygon] (vertice1 scenarioPolygon)
              (latitude (point scenarioAtVertex))
              (longitude (point scenarioAtVertex))
              3 0 2 false = Ok false
  /\ isPointIn3PointPolygon scenarioAtVertex scenarioPolygon = Ok true.
Proof. split; vm_compute; reflexivity. Qed.

(** ** The combiners and the rollup *)

Section CombinerProperties.

Variable Poseidon_hash : list Field.t -> Field.t.

(** What [AND] returns once its four checks pass: the second proof's bit
    is read by no check and by no output. *)
Lemma AND_output (proof1 proof2 : SelfProof CoordinateProofState) :
  verifies proof1 = true -> verifies proof2 = true ->
  coordinatesCommitment (publicOutput proof1)
    = coordinatesCommitment (publicOutput proof2) ->
  polygonCommitment (publicOutput proof1)
    <> polygonCommitment (publicOutput proof2) ->
  AND Poseidon_hash proof1 proof2 =
  Ok (mkCoordinateProofState
        (Poseidon_hash [polygonCommitment (publicOutput proof1);
                        polygonCommitment (publicOutput proof2)])
        (coordinatesCommitment (publicOutput proof1))
        (isInPolygon (publicOutput proof1))).
Proof.
  intros V1 V2 Hc Hp.
  unfold AND, verify, Field.assertEquals, Field.assertNotEquals,
    Field.equals, assertTrue.
  rewrite V1, V2, Hc, Z.eqb_refl. cbn [bind].
  destruct (Z.eqb_spec (polygonCommitment (publicOutput proof1))
                       (polygonCommitment (publicOutput proof2)));
    [contradiction |].
  cbn [negb bind]. destruct (isInPolygon (publicOutput proof1)); reflexivity.
Qed.

(** Every success of [AND] has passed the four checks. *)
Lemma AND_Ok_inv (proof1 proof2 : SelfProof CoordinateProofState)
      (out : CoordinateProofState) :
  AND Poseidon_hash proof1 proof2 = Ok out ->
  verifies proof1 = true /\ verifies proof2 = true /\
  coordinatesCommitment (publicOutput proof1)
    = coordinatesCommitment (publicOutput proof2) /\
  polygonCommitment (publicOutput proof1)
    <> polygonCommitment (publicOutput proof2) /\
  coordinatesCommitment out = coordinatesCommitment (publicOutput proof1).
Proof.
  unfold AND. intros H.
  apply bind_Ok in H as (u1 & V1 & H). apply verify_Ok in V1.
  apply bind_Ok in H as (u2 & V2 & H). apply verify_Ok in V2.
  apply bind_Ok in H as (u3 & Hc & H). apply assertTrue_Ok in Hc.
  apply bind_Ok in H as (u4 & Hp & H). apply assertTrue_Ok in Hp.
  injection H as <-.
  unfold Field.equals in *. apply Z.eqb_eq in Hc.
  apply negb_true_iff, Z.eqb_neq in Hp.
  repeat split; assumption || reflexivity.
Qed.

Lemma OR_Ok_inv (proof1 proof2 : SelfProof CoordinateProofState)
      (out : CoordinateProofState) :
  OR Poseidon_hash proof1 proof2 = Ok out ->
  verifies proof1 = true /\ verifies proof2 = true /\
  coordinatesCommitment (publicOutput proof1)
    = coordinatesCommitment (publicOutput proof2) /\
  polygonCommitment (publicOutput proof1)
    <> polygonCommitment (publicOutput proof2) /\
  coordinatesCommitment out = coordinatesCommitment (publicOutput proof1).
Proof.
  unfold OR. intros H.
  apply bind_Ok in H as (u1 & V1 & H). apply verify_Ok in V1.
  apply bind_Ok in H as (u2 & V2 & H). apply verify_Ok in V2.
  apply bind_Ok in H as (u3 & Hc & H). apply assertTrue_Ok in Hc.
  apply bind_Ok in H as (u4 & Hp & H). apply assertTrue_Ok in Hp.
  injection H as <-.
  unfold Field.equals in *. apply Z.eqb_eq in Hc.
  apply negb_true_iff, Z.eqb_neq in Hp.
  repeat split; assumption || reflexivity.
Qed.

(** C1, as the code behaves: a proof that the point is inside polygon [1]
    and a proof that the same point is outside polygon [2] are combined by
    [AND] without complaint, and the result reads "inside" for the pair.
    The bit of the second proof is never compared with the expected one. *)
Theorem AND_accepts_polarity_mismatch :
  isInPolygon (publicOutput (provenInside 1 5))
    <> isInPolygon (publicOutput (provenOutside 2 5)) /\
  AND Poseidon_hash (provenInside 1 5) (provenOutside 2 5)
    = Ok (mkCoordinateProofState (Poseidon_hash [1; 2]) 5 true).
Proof.
  split; [discriminate |].
  rewrite AND_output; try reflexivity. discriminate.
Qed.

(** C7: on two proofs that verify, for the same coordinates and for
    distinct polygons, [OR] returns the disjunction of the two bits and
    the hash of the two polygon commitments, in that order. *)
Theorem OR_output (proof1 proof2 : SelfProof CoordinateProofState) :
  verifies proof1 = true -> verifies proof2 = true ->
  coordinatesCommitment (publicOutput proof1)
    = coordinatesCommitment (publicOutput proof2) ->
  polygonCommitment (publicOutput proof1)
    <> polygonCommitment (publicOutput proof2) ->
  exists out,
    OR Poseidon_hash proof1 proof2 = Ok out /\
    isInPolygon out
      = isInPolygon (publicOutput proof1) || isInPolygon (publicOutput proof2) /\
    polygonCommitment out
      = Poseidon_hash [polygonCommitment (publicOutput proof1);
                       polygonCommitment (publicOutput proof2)].
Proof.
  intros V1 V2 Hc Hp.
  unfold OR, verify, Field.assertEquals, Field.assertNotEquals,
    Field.equals, assertTrue.
  rewrite V1, V2, Hc, Z.eqb_refl. cbn [bind].
  destruct (Z.eqb_spec (polygonCommitment (publicOutput proof1))
                       (polygonCommitment (publicOutput proof2)));
    [contradiction |].
  cbn [negb bind]. eexists. split; [reflexivity |].
  cbn [isInPolygon polygonCommitment]. split; [| reflexivity].
  destruct (_ || _); reflexivity.
Qed.

(** What [combine] returns once its checks pass: the value handed back as
    the inside commitment is read from the outside one. *)
Lemma combine_Ok_inv
      (proof1 proof2 : SelfProof CoordinatePolygonInclusionExclusionProof)
      (out : CoordinatePolygonInclusionExclusionProof) :
  combine Poseidon_hash proof1 proof2 = Ok out ->
  verifies proof1 = true /\ verifies proof2 = true /\
  inOutCoordinatesCommitment (publicOutput proof1)
    = inOutCoordinatesCommitment (publicOutput proof2) /\
  inOutCoordinatesCommitment out
    = inOutCoordinatesCommitment (publicOutput proof1) /\
  (insidePolygonCommitment out = 0 \/
   insidePolygonCommitment out = outsidePolygonCommitment out).
Proof.
  unfold combine. intros H.
  apply bind_Ok in H as (u1 & V1 & H). apply verify_Ok in V1.
  apply bind_Ok in H as (u2 & V2 & H). apply verify_Ok in V2.
  apply bind_Ok in H as (u3 & Hc & H). apply assertTrue_Ok in Hc.
  apply bind_Ok in H as (u4 & _ & H).
  injection H as <-.
  unfold Field.equals in Hc. apply Z.eqb_eq in Hc.
  repeat split; try assumption.
  cbn [insidePolygonCommitment outsidePolygonCommitment].
  destruct (_ && _); [left | right]; reflexivity.
Qed.

Lemma fromCoordinatesInPolygonProof_Ok_inv
      (proof : SelfProof CoordinateProofState)
      (out : CoordinatePolygonInclusionExclusionProof) :
  fromCoordinatesInPolygonProof proof = Ok out ->
  inOutCoordinatesCommitment out = coordinatesCommitment (publicOutput proof).
Proof.
  unfold fromCoordinatesInPolygonProof. intros H.
  apply bind_Ok in H as (u & _ & H). injection H as <-. reflexivity.
Qed.

(** C3, as the code behaves: the accumulator lifted from an inside proof,
    [(1, 0)], combined with the one lifted from an outside proof of the same
    coordinates, [(0, 2)].  Side by side the rule gives back [(1, 2)];
    [combine] returns the hash of [0] and [2] on both sides: the outside
    half tests the inside flag of the second proof, never resets to [0], and
    its last assignment overwrites the inside commitment with the outside
    one. *)
Theorem combine_overwrites_inside_commitment :
  fromCoordinatesInPolygonProof (provenInside 1 5)
    = Ok (publicOutput (accumulated 1 0 5)) /\
  fromCoordinatesInPolygonProof (provenOutside 2 5)
    = Ok (publicOutput (accumulated 0 2 5)) /\
  specCombinedSide Poseidon_hash 1 0 = 1 /\
  specCombinedSide Poseidon_hash 0 2 = 2 /\
  combine Poseidon_hash (accumulated 1 0 5) (accumulated 0 2 5)
    = Ok (mkCoordinatePolygonInclusionExclusionProof
            (Poseidon_hash [0; 2]) (Poseidon_hash [0; 2]) 5).
Proof. repeat split. Qed.

(** The same slip seen without the hash: [(1, 2)] combined with the empty
    accumulator should stay [(1, 2)], and comes back as [(2, 2)]; two inside
    accumulators [(1, 0)] and [(2, 0)] come back empty. *)
Lemma combine_inside_read_from_outside :
  specCombinedSide Poseidon_hash 1 0 = 1 /\
  combine Poseidon_hash (accumulated 1 2 5) (accumulated 0 0 5)
    = Ok (mkCoordinatePolygonInclusionExclusionProof 2 2 5) /\
  combine Poseidon_hash (accumulated 1 0 5) (accumulated 2 0 5)
    = Ok (mkCoordinatePolygonInclusionExclusionProof 0 0 5).
Proof. repeat split. Qed.

End CombinerProperties.

(** ** The coordinate commitment along compositions *)

Section CoordinateIdentity.

Variable Poseidon_hash : list Field.t -> Field.t.

Lemma compose_preserves_coordinates (c : Composition) :
  forall out,
    compose Poseidon_hash c = Ok out ->
    Forall (sameCoordinatesAs (coordinatesCommitment (publicOutput out)))
           (givenProofs c).
Proof.
  induction c as [proof | l IHl r IHr | l IHl r IHr]; intros out H.
  - injection H as <-. repeat constructor.
  - cbn [compose] in H.
    apply bind_Ok in H as (p1 & H1 & H).
    apply bind_Ok in H as (p2 & H2 & H).
    apply bind_Ok in H as (o & Ho & H).
    injection H as <-.
    apply AND_Ok_inv in Ho as (_ & _ & Hc & _ & Hout).
    cbn [givenProofs publicOutput]. rewrite Hout.
    apply Forall_app. split; [apply IHl, H1 |].
    rewrite Hc. apply IHr, H2.
  - cbn [compose] in H.
    apply bind_Ok in H as (p1 & H1 & H).
    apply bind_Ok in H as (p2 & H2 & H).
    apply bind_Ok in H as (o & Ho & H).
    injection H as <-.
    apply OR_Ok_inv in Ho as (_ & _ & Hc & _ & Hout).
    cbn [givenProofs publicOutput]. rewrite Hout.
    apply Forall_app. split; [apply IHl, H1 |].
    rewrite Hc. apply IHr, H2.
Qed.

Lemma rollup_preserves_coordinates (r : Rollup) :
  forall out,
    rollup Poseidon_hash r = Ok out ->
    Forall (sameCoordinatesAs (inOutCoordinatesCommitment (publicOutput out)))
           (rolledProofs r).
Proof.
  induction r as [c | l IHl r IHr]; intros out H.
  - cbn [rollup] in H.
    apply bind_Ok in H as (p & Hp & H).
    apply bind_Ok in H as (o & Ho & H).
    injection H as <-.
    apply fromCoordinatesInPolygonProof_Ok_inv in Ho.
    cbn [rolledProofs publicOutput]. rewrite Ho.
    apply compose_preserves_coordinates, Hp.
  - cbn [rollup] in H.
    apply bind_Ok in H as (p1 & H1 & H).
    apply bind_Ok in H as (p2 & H2 & H).
    apply bind_Ok in H as (o & Ho & H).
    injection H as <-.
    apply combine_Ok_inv in Ho as (_ & _ & Hc & Hout & _).
    cbn [rolledProofs publicOutput]. rewrite Hout.
    apply Forall_app. split; [apply IHl, H1 |].
    rewrite Hc. apply IHr, H2.
Qed.

(** C9: [AND], [OR] and the rollup [combine] hand on the coordinate
    commitment of their first input, which is that of the second as well;
    so along any tree of compositions, and any rollup over such trees, every
    proof that entered carries the coordinate commitment of the result. *)
Theorem coordinatesCommitment_is_preserved :
  (forall proof1 proof2 out,
      AND Poseidon_hash proof1 proof2 = Ok out ->
      coordinatesCommitment out = coordinatesCommitment (publicOutput proof1) /\
      coordinatesCommitment out = coordinatesCommitment (publicOutput proof2)) /\
  (forall proof1 proof2 out,
      OR Poseidon_hash proof1 proof2 = Ok out ->
      coordinatesCommitment out = coordinatesCommitment (publicOutput proof1) /\
      coordinatesCommitment out = coordinatesCommitment (publicOutput proof2)) /\
  (forall proof1 proof2 out,
      combine Poseidon_hash proof1 proof2 = Ok out ->
      inOutCoordinatesCommitment out
        = inOutCoordinatesCommitment (publicOutput proof1) /\
      inOutCoordinatesCommitment out
        = inOutCoordinatesCommitment (publicOutput proof2)) /\
  (forall c out,
      compose Poseidon_hash c = Ok out ->
      Forall (sameCoordinatesAs (coordinatesCommitment (publicOutput out)))
             (givenProofs c)) /\
  (forall r out,
      rollup Poseidon_hash r = Ok out ->
      Forall (sameCoordinatesAs (inOutCoordinatesCommitment (publicOutput out)))
             (rolledProofs r)).
Proof.
  split; [| split; [| split; [| split]]].
  - intros proof1 proof2 out H.
    apply AND_Ok_inv in H as (_ & _ & Hc & _ & Hout).
    split; [exact Hout | rewrite Hout; exact Hc].
  - intros proof1 proof2 out H.
    apply OR_Ok_inv in H as (_ & _ & Hc & _ & Hout).
    split; [exact Hout | rewrite Hout; exact Hc].
  - intros proof1 proof2 out H.
    apply combine_Ok_inv in H as (_ & _ & Hc & Hout & _).
    split; [exact Hout | rewrite Hout; exact Hc].
  - intros c. apply compose_preserves_coordinates.
  - intros r. apply rollup_preserves_coordinates.
Qed.

(** ** The proving method and the argument check *)

(** The proving method reads no factor and runs no validity check: inside
    the overflow budget it returns a proof state for every input. *)
Lemma proveCoordinatesIn3PointPolygon_within_budget
    (p : NoncedGeographicalPoint) (polygon : ThreePointPolygon) :
  inputsWithinBudget p polygon ->
  succeeds (proveCoordinatesIn3PointPolygon Poseidon_hash p polygon).
Proof.
  intros H. unfold proveCoordinatesIn3PointPolygon.
  destruct (isPointIn3PointPolygon_within_budget p polygon H) as (b & ->).
  cbn [bind]. eexists. reflexivity.
Qed.

(** In the first of the two inputs below every point passes
    [assertIsValid] on its own; only the factors disagree.  In the second
    the triangle passes and the point does not. *)
Lemma argument_check_examples :
  GeographicalPoint_assertIsValid (point mixedFactorPoint) = Ok tt /\
  GeographicalPoint_assertIsValid (vertice1 mixedFactorPolygon) = Ok tt /\
  GeographicalPoint_assertIsValid (vertice2 mixedFactorPolygon) = Ok tt /\
  GeographicalPoint_assertIsValid (vertice3 mixedFactorPolygon) = Ok tt /\
  Int64.assertEquals (factor (point mixedFactorPoint))
                     (factor (vertice1 mixedFactorPolygon))
    = Fail AssertionFailed /\
  GeographicalPoint_assertIsValid (point farPoint) = Fail AssertionFailed /\
  GeographicalPoint_assertIsValid (vertice1 unitPolygon) = Ok tt /\
  GeographicalPoint_assertIsValid (vertice2 unitPolygon) = Ok tt /\
  GeographicalPoint_assertIsValid (vertice3 unitPolygon) = Ok tt.
Proof. repeat split. Qed.

(** C2, as the code behaves: the argument check rejects a point at factor
    [1] against a triangle at factor [10], and a latitude of 200 degrees,
    but it is a method of another program whose output the proving method
    never consumes; [proveCoordinatesIn3PointPolygon] itself returns a proof
    state for both inputs. *)
Theorem proveCoordinatesIn3PointPolygon_skips_argument_check :
  verifyProoveCoordinatesIn3dPolygonArguments mixedFactorPoint mixedFactorPolygon
    = Fail AssertionFailed /\
  proveCoordinatesIn3PointPolygon Poseidon_hash mixedFactorPoint mixedFactorPolygon
    = Ok (mkCoordinateProofState
            (ThreePointPolygon_hash Poseidon_hash mixedFactorPolygon)
            (NoncedGeographicalPoint_hash Poseidon_hash mixedFactorPoint)
            true) /\
  verifyProoveCoordinatesIn3dPolygonArguments farPoint unitPolygon
    = Fail AssertionFailed /\
  proveCoordinatesIn3PointPolygon Poseidon_hash farPoint unitPolygon
    = Ok (mkCoordinateProofState
            (ThreePointPolygon_hash Poseidon_hash unitPolygon)
            (NoncedGeographicalPoint_hash Poseidon_hash farPoint)
            false).
Proof. repeat split. Qed.

End CoordinateIdentity.

(** ** The prover mixin *)

Section ProverProperties.

Variable S : ProofSystem.

(** Only a call of [authenticateFromIntegrationOracle] that returns writes
    the [integrationOracleProof] field. *)
Lemma perform_keeps_integrationOracleProof (this : Prover S) (c : Call S) :
  isCompletedAuthentication S (snd (perform S this c)) = false ->
  integrationOracleProof (fst (perform S this c)) = integrationOracleProof this.
Proof.
  destruct c as [publicKey signature | polygon | metadata |]; cbn [perform].
  - unfold authenticateFromIntegrationOracle.
    destruct (OracleGeoPointProviderCircuit_fromSignature S _ _ _);
      [| reflexivity].
    destruct (GeoPointProviderCircuit_fromOracle S _ _); [| reflexivity].
    cbn. discriminate.
  - unfold inPolygon. intros _.
    destruct (isUndefined (integrationOracleProof this)); [reflexivity |].
    destruct (readProof S (integrationOracleProof this)); [| reflexivity].
    destruct (GeoPointInPolygonCircuit_proveGeoPointIn3PointPolygon S _ _);
      reflexivity.
  - unfold attachMetadata. intros _.
    destruct (isUndefined (integrationOracleProof this)); [reflexivity |].
    destruct (readProof S (integrationOracleProof this)); [| reflexivity].
    destruct (ExactGeolocationMetadataCircuit_attachMetadataToGeoPoint S _ _);
      reflexivity.
  - reflexivity.
Qed.

Lemma session_cons (this : Prover S) (c : Call S) (rest : list (Call S)) :
  session S this (c :: rest) =
  (fst (session S (fst (perform S this c)) rest),
   snd (perform S this c) :: snd (session S (fst (perform S this c)) rest)).
Proof.
  cbn [session]. destruct (perform S this c) as [this' r].
  cbn [fst snd]. destruct (session S this' rest). reflexivity.
Qed.

Lemma session_keeps_integrationOracleProof (calls : list (Call S)) :
  forall this : Prover S,
    authenticationCompleted S (snd (session S this calls)) = false ->
    integrationOracleProof (fst (session S this calls))
      = integrationOracleProof this.
Proof.
  induction calls as [| c rest IH]; intros this H.
  - reflexivity.
  - rewrite session_cons in *. cbn [fst snd] in *.
    unfold authenticationCompleted in H. cbn [existsb] in H.
    apply orb_false_iff in H as [Hc Hrest].
    rewrite IH by exact Hrest.
    apply perform_keeps_integrationOracleProof, Hc.
Qed.

Lemma exactGeoPoint_Undefined (this : Prover S) :
  integrationOracleProof this = Undefined ->
  exactGeoPoint S this =
  Threw "Integration Oracle proof is not available. Please call authenticateFromIntegrationOracle first.".
Proof.
  intros H. unfold exactGeoPoint, exactGeoPointForIntegrationOracle,
    getIntegrationOracleProofOrError.
  rewrite H. reflexivity.
Qed.

(** C8: on an object on which no call of
    [authenticateFromIntegrationOracle] has returned, whatever else has been
    called, [exactGeoPoint] throws and hands back no proof; on an object
    holding a provider proof it hands that proof to the exact-reveal circuit
    and wraps what the circuit returns. *)
Theorem exactGeoPoint_requires_authentication :
  (forall (g : GeoPoint S) (calls : list (Call S)),
      authenticationCompleted S (snd (session S (newProver S g) calls)) = false ->
      exactGeoPoint S (fst (session S (newProver S g) calls)) =
      Threw "Integration Oracle proof is not available. Please call authenticateFromIntegrationOracle first.") /\
  (forall (this : Prover S) (held : ZKGeoPointProviderCircuitProof S),
      integrationOracleProof this = Defined held ->
      exactGeoPoint S this =
      match ExactGeoPointCircuit_fromGeoPointProvider S (providerProof held) with
      | Returned raw =>
          Returned (mkZKExactGeoPointCircuitProof S (zkGeoPoint this) raw)
      | Threw message => Threw message
      end).
Proof.
  split.
  - intros g calls H.
    apply exactGeoPoint_Undefined.
    rewrite session_keeps_integrationOracleProof by exact H. reflexivity.
  - intros this held H.
    unfold exactGeoPoint, exactGeoPointForIntegrationOracle,
      getIntegrationOracleProofOrError.
    rewrite H. reflexivity.
Qed.

End ProverProperties.

(** ** [ZKCoordinate] *)

(** C10: the constructor throws exactly when the factor that [ZKNumber]
    inferred exceeds [10^7]; otherwise it returns the number as built,
    whatever its value. *)
Theorem ZKCoordinate_new_throws_iff_factor_exceeds
    (InputNumber ZKNumber : Type)
    (ZKNumber_new : InputNumber -> ZKNumber)
    (ZKNumber_factor : ZKNumber -> Z)
    (Number_toString : Z -> string)
    (value : InputNumber) :
  ((exists message,
       ZKCoordinate_new InputNumber ZKNumber ZKNumber_new ZKNumber_factor
                        Number_toString value = Threw message)
   <-> ZKNumber_factor (ZKNumber_new value) > 10 ^ 7) /\
  (ZKNumber_factor (ZKNumber_new value) <= 10 ^ 7 ->
   ZKCoordinate_new InputNumber ZKNumber ZKNumber_new ZKNumber_factor
                    Number_toString value = Returned (ZKNumber_new value)).
Proof.
  unfold ZKCoordinate_new, MAX_FACTOR.
  destruct (Z.gtb_spec (ZKNumber_factor (ZKNumber_new value)) (10 ^ 7)) as [H | H].
  - split.
    + split; [intros _; lia | intros _; eexists; reflexivity].
    + intros H'. lia.
  - split.
    + split; [intros [m Hm]; discriminate Hm | intros H'; lia].
    + intros _. reflexivity.
Qed.

(** The literal [500], far outside any latitude or longitude, is accepted:
    it has no digit after the point.  A literal with eight digits after the
    point is refused. *)
Example ZKCoordinate_500_is_accepted :
  DecimalZKNumber.ZKCoordinate literal500
    = Returned (DecimalZKNumber.new literal500) /\
  DecimalZKNumber.scaled (DecimalZKNumber.new literal500) = 500 /\
  DecimalZKNumber.factor (DecimalZKNumber.new literal500) = 1 /\
  DecimalZKNumber.ZKCoordinate literalEightDecimals
    = Threw "Invalid factor. The maximum factor is 7. The provided value is 100000000".
Proof. repeat split. Qed.

(** ** The statements at the scenarios of the specification *)

Lemma isPointIn3PointPolygon_on_edge_is_inside_witness :
  inputsWithinBudget scenarioOnEdge scenarioPolygon /\
  pointOnEdge scenarioOnEdge (vertice3 scenarioPolygon) (vertice1 scenarioPolygon) /\
  isPointIn3PointPolygon scenarioOnEdge scenarioPolygon = Ok true.
Proof.
  assert (B : inputsWithinBudget scenarioOnEdge scenarioPolygon).
  { unfold inputsWithinBudget, pointWithinBudget, withinBudget. cbn. lia. }
  assert (E : pointOnEdge scenarioOnEdge
                (vertice3 scenarioPolygon) (vertice1 scenarioPolygon)).
  { unfold pointOnEdge, specOnEdge. cbn. lia. }
  split; [exact B |]. split; [exact E |].
  apply (isPointIn3PointPolygon_on_edge_is_inside scenarioOnEdge scenarioPolygon).
  - right; right; left. exact E.
  - exact B.
Defined.

Lemma rayCastPass_horizontal_edge_never_flips_witness :
  Int64.toZ (longitude (vertice2 scenarioPolygon))
    - Int64.toZ (longitude (vertice1 scenarioPolygon)) = 0 /\
  exists pass,
    rayCastPass (latitude scenarioPoint) (longitude scenarioPoint)
                (vertice1 scenarioPolygon) (vertice2 scenarioPolygon) true
      = Ok pass /\
    passDenominator pass = Int64.one /\
    passIsIntersect pass = false /\
    passInside pass = true.
Proof.
  assert (E : Int64.toZ (longitude (vertice2 scenarioPolygon))
                - Int64.toZ (longitude (vertice1 scenarioPolygon)) = 0)
    by reflexivity.
  split; [exact E |].
  destruct (rayCastPass_horizontal_edge_never_flips
              (latitude scenarioPoint) (longitude scenarioPoint)
              (vertice1 scenarioPolygon) (vertice2 scenarioPolygon) true E)
    as (_ & Hpass & Hruns).
  destruct Hruns as (pass & Hrun).
  - unfold withinBudget. cbn. lia.
  - unfold withinBudget. cbn. lia.
  - unfold pointWithinBudget, withinBudget. cbn. lia.
  - unfold pointWithinBudget, withinBudget. cbn. lia.
  - exists pass. split; [exact Hrun |].
    destruct (Hpass pass Hrun) as (_ & Hd & _ & Hi & Hin).
    repeat split; assumption.
Defined.

Lemma OR_output_witness :
  exists out,
    OR sampleHash (provenInside 1 5) (provenOutside 2 5) = Ok out /\
    isInPolygon out = true /\
    polygonCommitment out = sampleHash [1; 2].
Proof.
  destruct (OR_output sampleHash (provenInside 1 5) (provenOutside 2 5))
    as (out & Hrun & Hbit & Hpoly).
  - reflexivity.
  - reflexivity.
  - reflexivity.
  - cbn. discriminate.
  - exists out. repeat split; assumption.
Defined.

Lemma exactGeoPoint_requires_authentication_witness :
  authenticationCompleted sampleProofSystem
    (snd (session sampleProofSystem (newProver sampleProofSystem (3, 4))
                  sampleCalls)) = false /\
  exactGeoPoint sampleProofSystem
    (fst (session sampleProofSystem (newProver sampleProofSystem (3, 4))
                  sampleCalls)) =
  Threw "Integration Oracle proof is not available. Please call authenticateFromIntegrationOracle first." /\
  exactGeoPoint sampleProofSystem authenticatedProver =
  Returned (mkZKExactGeoPointCircuitProof sampleProofSystem (3, 4) (3, 4)).
Proof.
  destruct (exactGeoPoint_requires_authentication sampleProofSystem)
    as (Hnone & Hheld).
  split; [reflexivity |]. split.
  - apply Hnone. reflexivity.
  - rewrite (Hheld authenticatedProver
               (mkZKGeoPointProviderCircuitProof sampleProofSystem (3, 4)));
      reflexivity.
Defined.

Lemma coordinatesCommitment_is_preserved_witness :
  exists out,
    rollup sampleHash sampleRollup = Ok out /\
    inOutCoordinatesCommitment (publicOutput out) = 5 /\
    Forall (sameCoordinatesAs (inOutCoordinatesCommitment (publicOutput out)))
           (rolledProofs sampleRollup).
Proof.
  destruct (rollup sampleHash sampleRollup) as [out | e] eqn:Hrun;
    [| vm_compute in Hrun; discriminate Hrun].
  exists out. split; [reflexivity |]. split.
  - vm_compute in Hrun. injection Hrun as <-. reflexivity.
  - destruct (coordinatesCommitment_is_preserved sampleHash)
      as (_ & _ & _ & _ & Hrollup).
    apply Hrollup, Hrun.
Defined.

Lemma ZKCoordinate_new_throws_iff_factor_exceeds_witness :
  DecimalZKNumber.factor (DecimalZKNumber.new literal500) <= 10 ^ 7 /\
  DecimalZKNumber.ZKCoordinate literal500
    = Returned (DecimalZKNumber.new literal500) /\
  DecimalZKNumber.factor (DecimalZKNumber.new literalEightDecimals) > 10 ^ 7 /\
  exists message,
    DecimalZKNumber.ZKCoordinate literalEightDecimals = Threw message.
Proof.
  assert (H500 : DecimalZKNumber.factor (DecimalZKNumber.new literal500) <= 10 ^ 7)
    by (vm_compute; discriminate).
  assert (H8 : DecimalZKNumber.factor (DecimalZKNumber.new literalEightDecimals)
               > 10 ^ 7) by reflexivity.
  split; [exact H500 |]. split.
  - apply (ZKCoordinate_new_throws_iff_factor_exceeds
             DecimalZKNumber.InputNumber DecimalZKNumber.ZKNumber
             DecimalZKNumber.new DecimalZKNumber.factor
             DecimalZKNumber.toString literal500), H500.
  - split; [exact H8 |].
    apply (ZKCoordinate_new_throws_iff_factor_exceeds
             DecimalZKNumber.InputNumber DecimalZKNumber.ZKNumber
             DecimalZKNumber.new DecimalZKNumber.factor
             DecimalZKNumber.toString literalEightDecimals), H8.
Defined.

(** * Further properties of the circuit file *)

(** ** Validation *)

Lemma truncated_quotient_le (a b q : Z) :
  0 <= a -> 0 < b -> (a / b <= q <-> a < (q + 1) * b).
Proof.
  intros Ha Hb.
  pose proof (Z.div_mod a b ltac:(lia)) as E.
  pose proof (Z.mod_pos_bound a b Hb) as M.
  split; intros H; nia.
Qed.

(** X1: [assertIsValid] accepts exactly the points whose factor is non-zero
    and at most [10^7] in magnitude, whose stored longitude is at most 180 in
    magnitude, and whose latitude magnitude is below [91] times the factor:
    the division truncates, so every latitude under 91 degrees passes. *)
Theorem GeographicalPoint_assertIsValid_accepted_range (g : GeographicalPoint) :
  0 <= Int64.magnitude (latitude g) ->
  0 <= Int64.magnitude (factor g) ->
  (GeographicalPoint_assertIsValid g = Ok tt <->
   Int64.magnitude (factor g) <> 0 /\
   Int64.magnitude (latitude g) < 91 * Int64.magnitude (factor g) /\
   Int64.magnitude (longitude g) <= 180 /\
   Int64.magnitude (factor g) <= 10 ^ 7).
Proof.
  intros Hlat Hf. rewrite GeographicalPoint_assertIsValid_accepts.
  split; intros (H0 & H1 & H2 & H3); repeat split; try assumption.
  - apply (truncated_quotient_le _ _ 90) in H1; lia.
  - apply (truncated_quotient_le _ _ 90); lia.
Qed.

(** X2: a zero factor, and nothing else, makes [assertIsValid] stop at a
    division by zero; the method never fails by a range check. *)
Theorem GeographicalPoint_assertIsValid_failures (g : GeographicalPoint) :
  (GeographicalPoint_assertIsValid g = Fail DivisionByZero
   <-> Int64.magnitude (factor g) = 0) /\
  GeographicalPoint_assertIsValid g <> Fail RangeCheckFailed /\
  GeographicalPoint_assertIsValid g <> Fail ProofRejected.
Proof.
  unfold GeographicalPoint_assertIsValid, Int64.div, UInt64.divMod,
    UInt64.assertLessThanOrEqual, assertTrue.
  destruct (Z.eqb_spec (Int64.magnitude (factor g)) 0) as [E | E];
    cbn [bind fst Int64.magnitude].
  - repeat split; try discriminate. intros _. exact E.
  - destruct (_ <=? 90); cbn [bind];
      [destruct (_ <=? 180); cbn [bind];
       [destruct (_ <=? 10 ^ 7) |] |];
      (split; [split; [discriminate | intros H; contradiction] |
               split; discriminate]).
Qed.

(** X3: [assertIsValid] reads magnitudes only: replacing the sign of the
    latitude, of the longitude and of the factor changes nothing, so a
    negative factor passes where its positive twin does. *)
Theorem GeographicalPoint_assertIsValid_ignores_signs
    (g : GeographicalPoint) (s1 s2 s3 : Sign.t) :
  GeographicalPoint_assertIsValid
    (mkGeographicalPoint
       (Int64.mk (Int64.magnitude (latitude g)) s1)
       (Int64.mk (Int64.magnitude (longitude g)) s2)
       (Int64.mk (Int64.magnitude (factor g)) s3))
  = GeographicalPoint_assertIsValid g.
Proof.
  unfold GeographicalPoint_assertIsValid, Int64.div.
  cbn [latitude longitude factor Int64.magnitude Int64.sgn].
  destruct (UInt64.divMod (Int64.magnitude (latitude g))
                          (Int64.magnitude (factor g))); reflexivity.
Qed.

Lemma Int64_toField_injective (x y : Int64.t) :
  Int64_wellFormed x -> Int64_wellFormed y ->
  Int64.toField x = Int64.toField y -> Int64.toZ x = Int64.toZ y.
Proof.
  intros Hx Hy. unfold Int64.toField.
  pose proof (Int64_toZ_abs x (proj1 Hx)) as Ax.
  pose proof (Int64_toZ_abs y (proj1 Hy)) as Ay.
  pose proof MAXINT_value as M.
  assert (P : Field.ORDER =
    28948022309329048855892746252171976963363056481941560715954676764349967630337)
    by reflexivity.
  unfold Int64_wellFormed in *.
  set (a := Int64.toZ x) in *. set (b := Int64.toZ y) in *.
  intros E.
  pose proof (Z.div_mod a Field.ORDER ltac:(lia)) as Da.
  pose proof (Z.div_mod b Field.ORDER ltac:(lia)) as Db.
  rewrite E in Da.
  assert (K : a - b = Field.ORDER * (a / Field.ORDER - b / Field.ORDER)) by lia.
  assert (a / Field.ORDER - b / Field.ORDER = 0) by nia.
  lia.
Qed.

Lemma Int64_assertEquals_Ok (x y : Int64.t) :
  Int64_wellFormed x -> Int64_wellFormed y ->
  (Int64.assertEquals x y = Ok tt <-> Int64.toZ x = Int64.toZ y).
Proof.
  intros Hx Hy.
  unfold Int64.assertEquals, Field.assertEquals, Field.equals, assertTrue.
  destruct (Z.eqb_spec (Int64.toField x) (Int64.toField y)) as [E | E].
  - split; [intros _; apply Int64_toField_injective; assumption | reflexivity].
  - split; [discriminate |].
    intros H. exfalso. apply E. unfold Int64.toField. rewrite H. reflexivity.
Qed.

Lemma unit_circuit_cases (c : Circuit unit) :
  c = Ok tt \/ exists e, c = Fail e.
Proof. destruct c as [[] | e]; [left; reflexivity | right; exists e; reflexivity]. Qed.

(** X4: the argument check succeeds exactly when the point and the three
    vertices each pass [assertIsValid] and the three vertices carry the
    factor of the point; it then hands back the point without its nonce and
    the polygon, unchanged. *)
Theorem verifyProoveCoordinatesIn3dPolygonArguments_accepts
    (p : NoncedGeographicalPoint) (polygon : ThreePointPolygon) :
  Int64_wellFormed (factor (point p)) ->
  Int64_wellFormed (factor (vertice1 polygon)) ->
  Int64_wellFormed (factor (vertice2 polygon)) ->
  Int64_wellFormed (factor (vertice3 polygon)) ->
  (verifyProoveCoordinatesIn3dPolygonArguments p polygon
     = Ok (mkProoveCoordinatesIn3dPolygonArgumentsValues (point p) polygon)
   <->
   GeographicalPoint_assertIsValid (point p) = Ok tt /\
   GeographicalPoint_assertIsValid (vertice1 polygon) = Ok tt /\
   GeographicalPoint_assertIsValid (vertice2 polygon) = Ok tt /\
   GeographicalPoint_assertIsValid (vertice3 polygon) = Ok tt /\
   Int64.toZ (factor (vertice1 polygon)) = Int64.toZ (factor (point p)) /\
   Int64.toZ (factor (vertice2 polygon)) = Int64.toZ (factor (point p)) /\
   Int64.toZ (factor (vertice3 polygon)) = Int64.toZ (factor (point p))) /\
  (forall out,
      verifyProoveCoordinatesIn3dPolygonArguments p polygon = Ok out ->
      out = mkProoveCoordinatesIn3dPolygonArgumentsValues (point p) polygon).
Proof.
  intros W0 W1 W2 W3.
  pose proof (Int64_assertEquals_Ok _ _ W0 W1) as E1.
  pose proof (Int64_assertEquals_Ok _ _ W0 W2) as E2.
  pose proof (Int64_assertEquals_Ok _ _ W0 W3) as E3.
  unfold verifyProoveCoordinatesIn3dPolygonArguments,
    NoncedGeographicalPoint_assertIsValid.
  destruct (unit_circuit_cases (GeographicalPoint_assertIsValid (point p)))
    as [-> | (e & ->)]; cbn [bind];
    [| split; [split; [discriminate | intros (H & _); discriminate H]
              | discriminate]].
  destruct (unit_circuit_cases (GeographicalPoint_assertIsValid (vertice1 polygon)))
    as [-> | (e & ->)]; cbn [bind];
    [| split; [split; [discriminate | intros (_ & H & _); discriminate H]
              | discriminate]].
  destruct (unit_circuit_cases (GeographicalPoint_assertIsValid (vertice2 polygon)))
    as [-> | (e & ->)]; cbn [bind];
    [| split; [split; [discriminate | intros (_ & _ & H & _); discriminate H]
              | discriminate]].
  destruct (unit_circuit_cases (GeographicalPoint_assertIsValid (vertice3 polygon)))
    as [-> | (e & ->)]; cbn [bind];
    [| split; [split; [discriminate | intros (_ & _ & _ & H & _); discriminate H]
              | discriminate]].
  destruct (unit_circuit_cases
              (Int64.assertEquals (factor (point p)) (factor (vertice1 polygon))))
    as [A1 | (e & A1)]; rewrite A1; cbn [bind].
  2:{ split; [split; [discriminate |] | discriminate].
      intros (_ & _ & _ & _ & H & _). symmetry in H. apply E1 in H.
      rewrite H in A1. discriminate A1. }
  destruct (unit_circuit_cases
              (Int64.assertEquals (factor (point p)) (factor (vertice2 polygon))))
    as [A2 | (e & A2)]; rewrite A2; cbn [bind].
  2:{ split; [split; [discriminate |] | discriminate].
      intros (_ & _ & _ & _ & _ & H & _). symmetry in H. apply E2 in H.
      rewrite H in A2. discriminate A2. }
  destruct (unit_circuit_cases
              (Int64.assertEquals (factor (point p)) (factor (vertice3 polygon))))
    as [A3 | (e & A3)]; rewrite A3; cbn [bind].
  2:{ split; [split; [discriminate |] | discriminate].
      intros (_ & _ & _ & _ & _ & _ & H). symmetry in H. apply E3 in H.
      rewrite H in A3. discriminate A3. }
  split.
  - split; [intros _ | reflexivity].
    apply E1 in A1. apply E2 in A2. apply E3 in A3.
    repeat split; congruence.
  - intros out H. injection H as <-. reflexivity.
Qed.

(** X5: [ThreePointPolygon.assertIsValid] checks the three vertices and
    nothing about their order or their area: an accepted triangle is
    accepted with its vertices reversed, and so is the degenerate triangle
    that repeats one of its vertices three times. *)
Theorem ThreePointPolygon_assertIsValid_ignores_ordering
    (v1 v2 v3 : GeographicalPoint) :
  ThreePointPolygon_assertIsValid (mkThreePointPolygon v1 v2 v3) = Ok tt ->
  ThreePointPolygon_assertIsValid (mkThreePointPolygon v3 v2 v1) = Ok tt /\
  ThreePointPolygon_assertIsValid (mkThreePointPolygon v1 v1 v1) = Ok tt.
Proof.
  unfold ThreePointPolygon_assertIsValid,
    ThreePointPolygon_assertIsVerticesValid,
    ThreePointPolygon_assertIsOrderingValid.
  cbn [vertice1 vertice2 vertice3].
  destruct (unit_circuit_cases (GeographicalPoint_assertIsValid v1))
    as [-> | (e & ->)]; cbn [bind]; [| discriminate].
  destruct (unit_circuit_cases (GeographicalPoint_assertIsValid v2))
    as [-> | (e & ->)]; cbn [bind]; [| discriminate].
  destruct (unit_circuit_cases (GeographicalPoint_assertIsValid v3))
    as [-> | (e & ->)]; cbn [bind]; [| discriminate].
  intros _. split; reflexivity.
Qed.

(** ** The predicate against the specification's reading of it *)

Lemma specOnEdgeb_spec (x y x1 y1 x2 y2 : Z) :
  specOnEdgeb x y x1 y1 x2 y2 = true <-> specOnEdge x y x1 y1 x2 y2.
Proof.
  unfold specOnEdgeb, specOnEdge.
  rewrite !andb_true_iff, !Z.leb_le, Z.eqb_eq. tauto.
Qed.

Lemma isPointOnEdgeProvable_Ok_edgeHolds
    (p : NoncedGeographicalPoint) (v1 v2 : GeographicalPoint) (b : bool) :
  isPointOnEdgeProvable p v1 v2 = Ok b -> b = edgeHolds p v1 v2.
Proof.
  intros H. apply isPointOnEdgeProvable_Ok_spec in H.
  pose proof (specOnEdgeb_spec
                (Int64.toZ (latitude (point p))) (Int64.toZ (longitude (point p)))
                (Int64.toZ (latitude v1)) (Int64.toZ (longitude v1))
                (Int64.toZ (latitude v2)) (Int64.toZ (longitude v2))) as S.
  unfold pointOnEdge in H. unfold edgeHolds.
  destruct b, (specOnEdgeb _ _ _ _ _ _); try reflexivity.
  - symmetry. apply S, H. reflexivity.
  - apply H, S. reflexivity.
Qed.

Lemma Int64_quotient_toZ (N D : Z) :
  D <> 0 ->
  Int64.toZ (Int64.mk (Z.abs N / Z.abs D)
                      (Sign.mul (if N <? 0 then Sign.minusOne else Sign.one)
                                (if D <? 0 then Sign.minusOne else Sign.one)))
  = Z.quot N D.
Proof.
  intros HD. rewrite (Z.quot_div N D HD).
  unfold Int64.toZ. cbn [Int64.magnitude Int64.sgn].
  assert (Q : 0 <= Z.abs N / Z.abs D) by (apply Z.div_pos; lia).
  destruct (Z.eq_dec N 0) as [-> | HN].
  - cbn. lia.
  - destruct (Z.ltb_spec N 0), (Z.ltb_spec D 0); cbn [Sign.mul Sign.value].
    + rewrite (Z.sgn_neg N), (Z.sgn_neg D) by lia. lia.
    + rewrite (Z.sgn_neg N), (Z.sgn_pos D) by lia. lia.
    + rewrite (Z.sgn_pos N), (Z.sgn_neg D) by lia. lia.
    + rewrite (Z.sgn_pos N), (Z.sgn_pos D) by lia. lia.
Qed.

(** A pass that returns has toggled the accumulator exactly when the
    specification's flip condition holds for the edge. *)
Lemma rayCastPass_Ok_flips
    (x y : Int64.t) (vi vj : GeographicalPoint) (inside : bool)
    (pass : RayCastPass) :
  rayCastPass x y vi vj inside = Ok pass ->
  passInside pass
  = xorb inside
      (specFlips (Int64.toZ x) (Int64.toZ y)
                 (Int64.toZ (latitude vi)) (Int64.toZ (longitude vi))
                 (Int64.toZ (latitude vj)) (Int64.toZ (longitude vj))).
Proof.
  intros H. unfold rayCastPass in H.
  apply bind_Ok in H as (l & Hl & H). apply Int64_fromZ_inv in Hl. subst l.
  apply bind_Ok in H as (r & Hr & H). apply Int64_fromZ_inv in Hr. subst r.
  apply bind_Ok in H as (m & _ & H).
  apply bind_Ok in H as (n & Hn & H). apply Int64_fromZ_inv in Hn.
  rewrite !Int64_toZ_of_Z in Hn. subst n.
  apply bind_Ok in H as (d & Hd & H). apply Int64_fromZ_inv in Hd. subst d.
  unfold Int64Prover.provableIsInt64XEqualToZero,
    Int64Prover.provableIsInt64XGreaterThanY,
    Int64Prover.provableIsInt64XLessThanY in H.
  rewrite Int64_toZ_of_Z in H.
  unfold specFlips.
  set (xi := Int64.toZ (latitude vi)) in *.
  set (yi := Int64.toZ (longitude vi)) in *.
  set (xj := Int64.toZ (latitude vj)) in *.
  set (yj := Int64.toZ (longitude vj)) in *.
  set (px := Int64.toZ x) in *. set (py := Int64.toZ y) in *.
  assert (X : forall a b : bool,
             negb (if Bool.eqb a b then true else false) = xorb a b)
    by (intros [] []; reflexivity).
  rewrite X in H.
  destruct (Z.eqb_spec (yj - yi) 0) as [E | E].
  - apply bind_Ok in H as (q & _ & H).
    apply bind_Ok in H as (s & _ & H).
    injection H as <-. cbn [passInside negb].
    rewrite !andb_false_r. cbn [andb]. destruct inside; reflexivity.
  - apply bind_Ok in H as (q & Hq & H).
    rewrite Int64_div_Ok in Hq by (apply Int64_of_Z_magnitude_nonzero, E).
    injection Hq as <-.
    apply bind_Ok in H as (s & Hs & H). apply Int64_fromZ_inv in Hs.
    rewrite (Int64_quotient_toZ _ _ E) in Hs. subst s.
    rewrite Int64_toZ_of_Z in H. fold xi in H.
    injection H as <-. cbn [passInside negb].
    rewrite andb_true_r, (Z.add_comm xi).
    destruct (xorb (py <? yi) (py <? yj) && (px <? _)), inside; reflexivity.
Qed.

Lemma isPointIn3PointPolygon_Ok_specIsInside
    (p : NoncedGeographicalPoint) (polygon : ThreePointPolygon) (r : bool) :
  isPointIn3PointPolygon p polygon = Ok r -> r = specIsInside p polygon.
Proof.
  intros H. unfold isPointIn3PointPolygon in H.
  apply bind_Ok in H as (b1 & E1 & H). apply isPointOnEdgeProvable_Ok_edgeHolds in E1.
  apply bind_Ok in H as (b2 & E2 & H). apply isPointOnEdgeProvable_Ok_edgeHolds in E2.
  apply bind_Ok in H as (b3 & E3 & H). apply isPointOnEdgeProvable_Ok_edgeHolds in E3.
  apply bind_Ok in H as (casted & Hloop & H).
  injection H as <-.
  cbn [List.length rayCastLoop Nat.sub nth] in Hloop.
  apply bind_Ok in Hloop as (p1 & F1 & Hloop). apply rayCastPass_Ok_flips in F1.
  apply bind_Ok in Hloop as (p2 & F2 & Hloop). apply rayCastPass_Ok_flips in F2.
  apply bind_Ok in Hloop as (p3 & F3 & Hloop). apply rayCastPass_Ok_flips in F3.
  injection Hloop as <-.
  rewrite F3, F2, F1. subst b1 b2 b3.
  unfold specIsInside, edgeFlips. rewrite xorb_false_l.
  destruct (edgeHolds p (vertice1 polygon) (vertice2 polygon)
            || edgeHolds p (vertice2 polygon) (vertice3 polygon)
            || edgeHolds p (vertice3 polygon) (vertice1 polygon)); reflexivity.
Qed.

Lemma isPointIn3PointPolygon_budget_specIsInside
    (p : NoncedGeographicalPoint) (polygon : ThreePointPolygon) :
  inputsWithinBudget p polygon ->
  isPointIn3PointPolygon p polygon = Ok (specIsInside p polygon).
Proof.
  intros B.
  destruct (isPointIn3PointPolygon_within_budget p polygon B) as (r & Hr).
  rewrite Hr. f_equal. apply isPointIn3PointPolygon_Ok_specIsInside, Hr.
Qed.

(** X6: [isPointIn3PointPolygon] computes the specification's test: the
    disjunction of the three edge memberships and of the parity of the three
    flips, a flip being a straddled, non-horizontal edge with
    [x < xi + (xj - xi) * (y - yi) / (yj - yi)] under truncating division.
    Whatever it returns is that value, and inside the overflow budget it
    returns. *)
Theorem isPointIn3PointPolygon_computes_specification
    (p : NoncedGeographicalPoint) (polygon : ThreePointPolygon) :
  (forall r, isPointIn3PointPolygon p polygon = Ok r ->
             r = specIsInside p polygon) /\
  (inputsWithinBudget p polygon ->
   isPointIn3PointPolygon p polygon = Ok (specIsInside p polygon)).
Proof.
  split.
  - intros r. apply isPointIn3PointPolygon_Ok_specIsInside.
  - apply isPointIn3PointPolygon_budget_specIsInside.
Qed.

Lemma edgeHolds_symmetric
    (p : NoncedGeographicalPoint) (v1 v2 : GeographicalPoint) :
  edgeHolds p v2 v1 = edgeHolds p v1 v2.
Proof.
  unfold edgeHolds.
  set (x := Int64.toZ (latitude (point p))).
  set (y := Int64.toZ (longitude (point p))).
  set (x1 := Int64.toZ (latitude v1)). set (y1 := Int64.toZ (longitude v1)).
  set (x2 := Int64.toZ (latitude v2)). set (y2 := Int64.toZ (longitude v2)).
  pose proof (specOnEdgeb_spec x y x1 y1 x2 y2) as A.
  pose proof (specOnEdgeb_spec x y x2 y2 x1 y1) as B.
  assert (E : specOnEdge x y x2 y2 x1 y1 <-> specOnEdge x y x1 y1 x2 y2).
  { unfold specOnEdge. rewrite (Z.min_comm x2 x1), (Z.max_comm x2 x1),
      (Z.min_comm y2 y1), (Z.max_comm y2 y1).
    split; intros (Hx & Hy & Hl); repeat split; try tauto; lia. }
  destruct (specOnEdgeb x y x1 y1 x2 y2), (specOnEdgeb x y x2 y2 x1 y1);
    try reflexivity.
  - apply B, E, A. reflexivity.
  - symmetry. apply A, E, B. reflexivity.
Qed.

Lemma isPointOnEdgeProvable_budget_edgeHolds
    (p : NoncedGeographicalPoint) (v1 v2 : GeographicalPoint) :
  pointWithinBudget (point p) -> pointWithinBudget v1 -> pointWithinBudget v2 ->
  isPointOnEdgeProvable p v1 v2 = Ok (edgeHolds p v1 v2).
Proof.
  intros Hp H1 H2.
  destruct (isPointOnEdgeProvable_spec p v1 v2 Hp H1 H2) as (b & Hb & _).
  rewrite Hb. f_equal. apply isPointOnEdgeProvable_Ok_edgeHolds, Hb.
Qed.

(** X7: edge membership does not depend on the direction of the edge:
    [isPointOnEdgeProvable] gives the same answer for [(v1, v2)] and for
    [(v2, v1)]. *)
Theorem isPointOnEdgeProvable_symmetric
    (p : NoncedGeographicalPoint) (v1 v2 : GeographicalPoint) :
  (forall b b',
      isPointOnEdgeProvable p v1 v2 = Ok b ->
      isPointOnEdgeProvable p v2 v1 = Ok b' -> b' = b) /\
  (pointWithinBudget (point p) -> pointWithinBudget v1 -> pointWithinBudget v2 ->
   isPointOnEdgeProvable p v2 v1 = isPointOnEdgeProvable p v1 v2).
Proof.
  split.
  - intros b b' H H'.
    apply isPointOnEdgeProvable_Ok_edgeHolds in H, H'.
    rewrite H, H'. apply edgeHolds_symmetric.
  - intros Hp H1 H2.
    rewrite !isPointOnEdgeProvable_budget_edgeHolds by assumption.
    f_equal. apply edgeHolds_symmetric.
Qed.

Lemma specIsInside_rotated
    (p : NoncedGeographicalPoint) (polygon : ThreePointPolygon) :
  specIsInside p (rotated polygon) = specIsInside p polygon.
Proof.
  unfold specIsInside, rotated. cbn [vertice1 vertice2 vertice3].
  destruct (edgeHolds p (vertice1 polygon) (vertice2 polygon)),
    (edgeHolds p (vertice2 polygon) (vertice3 polygon)),
    (edgeHolds p (vertice3 polygon) (vertice1 polygon)),
    (edgeFlips p (vertice1 polygon) (vertice3 polygon)),
    (edgeFlips p (vertice2 polygon) (vertice1 polygon)),
    (edgeFlips p (vertice3 polygon) (vertice2 polygon)); reflexivity.
Qed.

(** X8: the classification does not depend on the vertex the triangle is
    read from: [isPointIn3PointPolygon] gives the same answer for
    [(v1, v2, v3)] and for [(v2, v3, v1)]. *)
Theorem isPointIn3PointPolygon_rotation
    (p : NoncedGeographicalPoint) (polygon : ThreePointPolygon) :
  (forall r r',
      isPointIn3PointPolygon p polygon = Ok r ->
      isPointIn3PointPolygon p (rotated polygon) = Ok r' -> r' = r) /\
  (inputsWithinBudget p polygon ->
   isPointIn3PointPolygon p (rotated polygon) = isPointIn3PointPolygon p polygon).
Proof.
  split.
  - intros r r' H H'.
    apply isPointIn3PointPolygon_Ok_specIsInside in H, H'.
    rewrite H, H'. apply specIsInside_rotated.
  - intros B.
    assert (B' : inputsWithinBudget p (rotated polygon)).
    { unfold inputsWithinBudget, rotated in *. cbn [vertice1 vertice2 vertice3].
      tauto. }
    rewrite (isPointIn3PointPolygon_budget_specIsInside _ _ B),
      (isPointIn3PointPolygon_budget_specIsInside _ _ B').
    f_equal. apply specIsInside_rotated.
Qed.

(** ** Points outside the bounding box *)

Lemma quot_scaled_between (w k D : Z) :
  0 < D -> 0 <= k <= D ->
  (0 <= w -> 0 <= Z.quot (w * k) D <= w) /\
  (w <= 0 -> w <= Z.quot (w * k) D <= 0).
Proof.
  intros HD Hk.
  assert (P : forall v, 0 <= v -> 0 <= Z.quot (v * k) D <= v).
  { intros v Hv.
    assert (0 <= v * k) by (apply Z.mul_nonneg_nonneg; lia).
    rewrite Z.quot_div_nonneg by lia. split.
    - apply Z.div_pos; lia.
    - apply Z.div_le_upper_bound; [lia | nia]. }
  split; intros Hw.
  - apply P, Hw.
  - replace (w * k) with (- ((- w) * k)) by ring.
    rewrite Z.quot_opp_l by lia.
    specialize (P (- w) ltac:(lia)). lia.
Qed.

(** The crossing of a straddled edge with the ray lies between the
    latitudes of its endpoints, truncation included. *)
Lemma crossing_between (y xi yi xj yj : Z) :
  xorb (y <? yi) (y <? yj) = true ->
  yj - yi <> 0 /\
  Z.min xi xj <= xi + Z.quot ((xj - xi) * (y - yi)) (yj - yi) <= Z.max xi xj.
Proof.
  intros H.
  destruct (Z.ltb_spec y yi) as [A | A], (Z.ltb_spec y yj) as [B | B];
    try discriminate H.
  - split; [lia |].
    replace ((xj - xi) * (y - yi)) with (- ((xj - xi) * (yi - y))) by ring.
    replace (yj - yi) with (- (yi - yj)) by ring.
    rewrite Z.quot_opp_opp by lia.
    destruct (quot_scaled_between (xj - xi) (yi - y) (yi - yj)) as [P N]; lia.
  - split; [lia |].
    destruct (quot_scaled_between (xj - xi) (y - yi) (yj - yi)) as [P N]; lia.
Qed.

Lemma specFlips_right_of_edge (x y xi yi xj yj : Z) :
  Z.max xi xj < x -> specFlips x y xi yi xj yj = false.
Proof.
  intros H. unfold specFlips.
  destruct (xorb (y <? yi) (y <? yj)) eqn:S; [| reflexivity].
  destruct (crossing_between y xi yi xj yj S) as (_ & C).
  destruct (Z.ltb_spec x (xi + Z.quot ((xj - xi) * (y - yi)) (yj - yi)));
    [lia | apply andb_false_r].
Qed.

Lemma specFlips_left_of_edge (x y xi yi xj yj : Z) :
  x < Z.min xi xj -> specFlips x y xi yi xj yj = xorb (y <? yi) (y <? yj).
Proof.
  intros H. unfold specFlips.
  destruct (xorb (y <? yi) (y <? yj)) eqn:S; [| reflexivity].
  destruct (crossing_between y xi yi xj yj S) as (D & C).
  destruct (Z.eqb_spec (yj - yi) 0); [contradiction |].
  destruct (Z.ltb_spec x (xi + Z.quot ((xj - xi) * (y - yi)) (yj - yi)));
    [reflexivity | lia].
Qed.

Lemma specFlips_not_straddled (x y xi yi xj yj : Z) :
  (y <? yi) = (y <? yj) -> specFlips x y xi yi xj yj = false.
Proof.
  intros H. unfold specFlips. rewrite H, xorb_nilpotent. reflexivity.
Qed.

Lemma specOnEdgeb_outside (x y x1 y1 x2 y2 : Z) :
  x < Z.min x1 x2 \/ Z.max x1 x2 < x \/ y < Z.min y1 y2 \/ Z.max y1 y2 < y ->
  specOnEdgeb x y x1 y1 x2 y2 = false.
Proof.
  intros H. destruct (specOnEdgeb x y x1 y1 x2 y2) eqn:E; [| reflexivity].
  apply specOnEdgeb_spec in E. unfold specOnEdge in E. lia.
Qed.

Lemma specIsInside_outsideBoundingBox
    (p : NoncedGeographicalPoint) (polygon : ThreePointPolygon) :
  outsideBoundingBox p polygon -> specIsInside p polygon = false.
Proof.
  unfold outsideBoundingBox, specIsInside, edgeHolds, edgeFlips.
  set (x := Int64.toZ (latitude (point p))).
  set (y := Int64.toZ (longitude (point p))).
  set (x1 := Int64.toZ (latitude (vertice1 polygon))).
  set (y1 := Int64.toZ (longitude (vertice1 polygon))).
  set (x2 := Int64.toZ (latitude (vertice2 polygon))).
  set (y2 := Int64.toZ (longitude (vertice2 polygon))).
  set (x3 := Int64.toZ (latitude (vertice3 polygon))).
  set (y3 := Int64.toZ (longitude (vertice3 polygon))).
  cbv zeta. intros H.
  rewrite (specOnEdgeb_outside x y x1 y1 x2 y2) by lia.
  rewrite (specOnEdgeb_outside x y x2 y2 x3 y3) by lia.
  rewrite (specOnEdgeb_outside x y x3 y3 x1 y1) by lia.
  cbn [orb].
  destruct H as [L | [R | [Lo | Hi]]].
  - rewrite !specFlips_left_of_edge by lia.
    destruct (y <? y1), (y <? y2), (y <? y3); reflexivity.
  - rewrite !specFlips_right_of_edge by lia. reflexivity.
  - rewrite !specFlips_not_straddled; [reflexivity | | |];
      repeat match goal with
             | |- context [?a <? ?b] => destruct (Z.ltb_spec a b); try lia
             end; reflexivity.
  - rewrite !specFlips_not_straddled; [reflexivity | | |];
      repeat match goal with
             | |- context [?a <? ?b] => destruct (Z.ltb_spec a b); try lia
             end; reflexivity.
Qed.

(** X9: a point strictly outside the bounding box of the triangle, on any
    of its four sides, is never classified inside, and inside the overflow
    budget it is classified outside. *)
Theorem isPointIn3PointPolygon_outside_bounding_box
    (p : NoncedGeographicalPoint) (polygon : ThreePointPolygon) :
  outsideBoundingBox p polygon ->
  (forall r, isPointIn3PointPolygon p polygon = Ok r -> r = false) /\
  (inputsWithinBudget p polygon -> isPointIn3PointPolygon p polygon = Ok false).
Proof.
  intros H. apply specIsInside_outsideBoundingBox in H. split.
  - intros r Hr. apply isPointIn3PointPolygon_Ok_specIsInside in Hr. congruence.
  - intros B. rewrite (isPointIn3PointPolygon_budget_specIsInside _ _ B).
    f_equal. exact H.
Qed.

(** ** How the predicate can fail *)

Lemma failsOnlyByRange_bind {A B : Type} (c : Circuit A) (k : A -> Circuit B) :
  failsOnlyByRange c -> (forall a, c = Ok a -> failsOnlyByRange (k a)) ->
  failsOnlyByRange (bind c k).
Proof.
  intros Hc Hk e. destruct c as [a | e']; cbn [bind].
  - apply (Hk a eq_refl).
  - intros H. injection H as <-. apply Hc. reflexivity.
Qed.

Lemma failsOnlyByRange_Ok {A : Type} (a : A) : failsOnlyByRange (Ok a).
Proof. intros e H. discriminate H. Qed.

Lemma failsOnlyByRange_fromZ (v : Z) : failsOnlyByRange (Int64.fromZ v).
Proof.
  intros e. unfold Int64.fromZ.
  destruct (Z.abs v <=? UInt64.MAXINT); [discriminate |].
  intros H. injection H as <-. reflexivity.
Qed.

Lemma failsOnlyByRange_UInt64_mul (a b : Z) : failsOnlyByRange (UInt64.mul a b).
Proof.
  intros e. unfold UInt64.mul, UInt64.check.
  destruct ((0 <=? a * b) && (a * b <=? UInt64.MAXINT)); [discriminate |].
  intros H. injection H as <-. reflexivity.
Qed.

Lemma failsOnlyByRange_isPointOnEdgeProvable
    (p : NoncedGeographicalPoint) (v1 v2 : GeographicalPoint) :
  failsOnlyByRange (isPointOnEdgeProvable p v1 v2).
Proof.
  unfold isPointOnEdgeProvable.
  repeat (apply failsOnlyByRange_bind;
          [apply failsOnlyByRange_fromZ | intros ? _]).
  apply failsOnlyByRange_Ok.
Qed.

Lemma failsOnlyByRange_rayCastPass
    (x y : Int64.t) (vi vj : GeographicalPoint) (inside : bool) :
  failsOnlyByRange (rayCastPass x y vi vj inside).
Proof.
  unfold rayCastPass.
  apply failsOnlyByRange_bind; [apply failsOnlyByRange_fromZ | intros l _].
  apply failsOnlyByRange_bind; [apply failsOnlyByRange_fromZ | intros r _].
  apply failsOnlyByRange_bind; [apply failsOnlyByRange_UInt64_mul | intros m _].
  apply failsOnlyByRange_bind; [apply failsOnlyByRange_fromZ | intros n _].
  apply failsOnlyByRange_bind; [apply failsOnlyByRange_fromZ | intros d _].
  unfold Int64Prover.provableIsInt64XEqualToZero.
  assert (Hden : Int64.magnitude
                   (if Int64.toZ d =? 0 then Int64.one else d) <> 0).
  { destruct (Z.eqb_spec (Int64.toZ d) 0) as [E | E].
    - discriminate.
    - apply Int64_toZ_nonzero_magnitude, E. }
  rewrite (Int64_div_Ok n _ Hden). cbn [bind].
  apply failsOnlyByRange_bind; [apply failsOnlyByRange_fromZ | intros s _].
  apply failsOnlyByRange_Ok.
Qed.

Lemma failsOnlyByRange_rayCastLoop
    (vertices : list GeographicalPoint) (dflt : GeographicalPoint)
    (x y : Int64.t) (remaining : nat) :
  forall (i j : nat) (inside : bool),
    failsOnlyByRange (rayCastLoop vertices dflt x y remaining i j inside).
Proof.
  induction remaining as [| remaining IH]; intros i j inside; cbn [rayCastLoop].
  - apply failsOnlyByRange_Ok.
  - apply failsOnlyByRange_bind;
      [apply failsOnlyByRange_rayCastPass | intros pass _; apply IH].
Qed.

(** X10: the only way [isPointIn3PointPolygon] can fail, on any input, is a
    range check of the 64-bit arithmetic: it asserts nothing, and it never
    divides by zero, however degenerate the triangle. *)
Theorem isPointIn3PointPolygon_fails_only_by_range
    (p : NoncedGeographicalPoint) (polygon : ThreePointPolygon) :
  isPointIn3PointPolygon p polygon = Fail RangeCheckFailed \/
  exists r, isPointIn3PointPolygon p polygon = Ok r.
Proof.
  assert (F : failsOnlyByRange (isPointIn3PointPolygon p polygon)).
  { unfold isPointIn3PointPolygon.
    repeat (apply failsOnlyByRange_bind;
            [apply failsOnlyByRange_isPointOnEdgeProvable | intros ? _]).
    apply failsOnlyByRange_bind;
      [apply failsOnlyByRange_rayCastLoop | intros casted _].
    apply failsOnlyByRange_Ok. }
  destruct (isPointIn3PointPolygon p polygon) as [r | e].
  - right. exists r. reflexivity.
  - left. f_equal. apply F. reflexivity.
Qed.

(** * Further properties of the combiners *)

Section CombinerAcceptance.

Variable Poseidon_hash : list Field.t -> Field.t.

(** X11: [AND] returns exactly when both proofs verify, commit to the same
    coordinates and commit to different polygons.  A proof that does not
    verify is a rejected proof; different coordinates or one polygon twice
    are a failed assertion, so a proof can never be combined with itself. *)
Theorem AND_succeeds_iff (proof1 proof2 : SelfProof CoordinateProofState) :
  (succeeds (AND Poseidon_hash proof1 proof2) <->
   verifies proof1 = true /\ verifies proof2 = true /\
   coordinatesCommitment (publicOutput proof1)
     = coordinatesCommitment (publicOutput proof2) /\
   polygonCommitment (publicOutput proof1)
     <> polygonCommitment (publicOutput proof2)) /\
  (verifies proof1 = false \/ verifies proof2 = false ->
   AND Poseidon_hash proof1 proof2 = Fail ProofRejected) /\
  (verifies proof1 = true -> verifies proof2 = true ->
   coordinatesCommitment (publicOutput proof1)
     <> coordinatesCommitment (publicOutput proof2) \/
   polygonCommitment (publicOutput proof1)
     = polygonCommitment (publicOutput proof2) ->
   AND Poseidon_hash proof1 proof2 = Fail AssertionFailed) /\
  ~ succeeds (AND Poseidon_hash proof1 proof1).
Proof.
  assert (Hiff : succeeds (AND Poseidon_hash proof1 proof2) <->
                 verifies proof1 = true /\ verifies proof2 = true /\
                 coordinatesCommitment (publicOutput proof1)
                   = coordinatesCommitment (publicOutput proof2) /\
                 polygonCommitment (publicOutput proof1)
                   <> polygonCommitment (publicOutput proof2)).
  { split.
    - intros (out & H). apply AND_Ok_inv in H. tauto.
    - intros (V1 & V2 & Hc & Hp). eexists.
      apply AND_output; assumption. }
  assert (Hself : ~ succeeds (AND Poseidon_hash proof1 proof1)).
  { intros (out & H). apply AND_Ok_inv in H as (_ & _ & _ & Hp & _).
    apply Hp. reflexivity. }
  split; [exact Hiff |]. split; [| split].
  - unfold AND, verify. intros [V | V].
    + rewrite V. reflexivity.
    + rewrite V. destruct (verifies proof1); reflexivity.
  - intros V1 V2 H. unfold AND, verify, Field.assertEquals,
      Field.assertNotEquals, Field.equals, assertTrue.
    rewrite V1, V2. cbn [bind].
    destruct (Z.eqb_spec (coordinatesCommitment (publicOutput proof1))
                         (coordinatesCommitment (publicOutput proof2)));
      cbn [bind]; [| reflexivity].
    destruct (Z.eqb_spec (polygonCommitment (publicOutput proof1))
                         (polygonCommitment (publicOutput proof2)));
      cbn [negb bind]; [reflexivity | tauto].
  - exact Hself.
Qed.

(** X12: [OR] and [AND] accept the same pairs of proofs, fail the same way
    on the others, and return the same polygon and coordinate commitments;
    they differ in the bit alone, [AND] handing on the bit of the first
    proof and [OR] the disjunction of the two. *)
Theorem OR_differs_from_AND_in_the_bit_only
    (proof1 proof2 : SelfProof CoordinateProofState) :
  match AND Poseidon_hash proof1 proof2, OR Poseidon_hash proof1 proof2 with
  | Ok a, Ok o =>
      polygonCommitment a = polygonCommitment o /\
      coordinatesCommitment a = coordinatesCommitment o /\
      isInPolygon a = isInPolygon (publicOutput proof1) /\
      isInPolygon o = isInPolygon (publicOutput proof1)
                      || isInPolygon (publicOutput proof2)
  | Fail e, Fail e' => e = e'
  | _, _ => False
  end.
Proof.
  unfold AND, OR, verify, Field.assertEquals, Field.assertNotEquals, assertTrue.
  destruct (verifies proof1); cbn [bind]; [| reflexivity].
  destruct (verifies proof2); cbn [bind]; [| reflexivity].
  destruct (Field.equals _ _); cbn [bind]; [| reflexivity].
  destruct (negb (Field.equals _ _)); cbn [bind]; [| reflexivity].
  cbn [polygonCommitment coordinatesCommitment isInPolygon].
  repeat split.
  - destruct (isInPolygon (publicOutput proof1)); reflexivity.
  - destruct (_ || _); reflexivity.
Qed.

Lemma compose_chainAND_snoc
    (first : SelfProof CoordinateProofState)
    (rest : list (SelfProof CoordinateProofState))
    (last : SelfProof CoordinateProofState) :
  compose Poseidon_hash (chainAND first (rest ++ [last])) =
  (combined <- compose Poseidon_hash (chainAND first rest) ;;
   out <- AND Poseidon_hash combined last ;;
   Ok (mkSelfProof out true)).
Proof.
  unfold chainAND. rewrite fold_left_app. cbn [fold_left compose].
  destruct (compose Poseidon_hash _); reflexivity.
Qed.

(** X13: when a list of proofs is rolled up by [AND] from the left, as
    [combineProofs] does, the result carries the bit of the first proof
    whatever the bits of the others, the coordinate commitment of the first
    proof, and as polygon commitment the left fold of the hash over the
    polygon commitments in list order; every further proof verified and
    committed to the same coordinates. *)
Theorem chainAND_output
    (first : SelfProof CoordinateProofState)
    (rest : list (SelfProof CoordinateProofState))
    (out : SelfProof CoordinateProofState) :
  compose Poseidon_hash (chainAND first rest) = Ok out ->
  isInPolygon (publicOutput out) = isInPolygon (publicOutput first) /\
  coordinatesCommitment (publicOutput out)
    = coordinatesCommitment (publicOutput first) /\
  polygonCommitment (publicOutput out)
    = fold_left (fun acc proof =>
                   Poseidon_hash [acc; polygonCommitment (publicOutput proof)])
                rest (polygonCommitment (publicOutput first)) /\
  Forall (fun proof =>
            verifies proof = true /\
            coordinatesCommitment (publicOutput proof)
              = coordinatesCommitment (publicOutput first)) rest.
Proof.
  revert out.
  induction rest as [| last rest IH] using rev_ind; intros out H.
  - injection H as <-. repeat split. constructor.
  - rewrite compose_chainAND_snoc in H.
    apply bind_Ok in H as (combined & Hc & H).
    apply bind_Ok in H as (o & Ho & H). injection H as <-.
    destruct (IH combined Hc) as (Hbit & Hcoord & Hpoly & Hall).
    pose proof (AND_Ok_inv _ _ _ _ Ho) as (V1 & V2 & Hsame & _ & Hout).
    rewrite (AND_output Poseidon_hash combined last) in Ho
      by (apply AND_Ok_inv in Ho; tauto).
    injection Ho as <-.
    cbn [publicOutput isInPolygon coordinatesCommitment polygonCommitment].
    rewrite fold_left_app. cbn [fold_left]. rewrite Hpoly.
    repeat split; try assumption.
    apply Forall_app. split; [exact Hall |].
    constructor; [| constructor]. split; [exact V2 | congruence].
Qed.

End CombinerAcceptance.

(** * Further properties of the rollup *)

Section RollupAcceptance.

Variable Poseidon_hash : list Field.t -> Field.t.

Lemma fromCoordinatesInPolygonProof_sides
    (proof : SelfProof CoordinateProofState)
    (out : CoordinatePolygonInclusionExclusionProof) :
  fromCoordinatesInPolygonProof proof = Ok out ->
  insidePolygonCommitment out = 0 \/ outsidePolygonCommitment out = 0.
Proof.
  unfold fromCoordinatesInPolygonProof. intros H.
  apply bind_Ok in H as (u & _ & H). injection H as <-.
  cbn [insidePolygonCommitment outsidePolygonCommitment].
  destruct (isInPolygon (publicOutput proof)); [right | left]; reflexivity.
Qed.

(** X14: [combine] returns exactly when both accumulators verify, commit to
    the same coordinates, and differ in their inside commitment or in their
    outside commitment; an accumulator can never be combined with itself. *)
Theorem combine_succeeds_iff
    (proof1 proof2 : SelfProof CoordinatePolygonInclusionExclusionProof) :
  (succeeds (combine Poseidon_hash proof1 proof2) <->
   verifies proof1 = true /\ verifies proof2 = true /\
   inOutCoordinatesCommitment (publicOutput proof1)
     = inOutCoordinatesCommitment (publicOutput proof2) /\
   (insidePolygonCommitment (publicOutput proof1)
      <> insidePolygonCommitment (publicOutput proof2) \/
    outsidePolygonCommitment (publicOutput proof1)
      <> outsidePolygonCommitment (publicOutput proof2))) /\
  ~ succeeds (combine Poseidon_hash proof1 proof1).
Proof.
  assert (Hiff : forall q1 q2 : SelfProof CoordinatePolygonInclusionExclusionProof,
             succeeds (combine Poseidon_hash q1 q2) <->
             verifies q1 = true /\ verifies q2 = true /\
             inOutCoordinatesCommitment (publicOutput q1)
               = inOutCoordinatesCommitment (publicOutput q2) /\
             (insidePolygonCommitment (publicOutput q1)
                <> insidePolygonCommitment (publicOutput q2) \/
              outsidePolygonCommitment (publicOutput q1)
                <> outsidePolygonCommitment (publicOutput q2))).
  { intros q1 q2. unfold succeeds, combine, verify, Field.assertEquals,
      Field.equals, assertTrue.
    destruct (verifies q1); cbn [bind];
      [| split; [intros (o & H); discriminate H
                | intros (H & _); discriminate H]].
    destruct (verifies q2); cbn [bind];
      [| split; [intros (o & H); discriminate H
                | intros (_ & H & _); discriminate H]].
    destruct (Z.eqb_spec (inOutCoordinatesCommitment (publicOutput q1))
                         (inOutCoordinatesCommitment (publicOutput q2)));
      cbn [bind];
      [| split; [intros (o & H); discriminate H
                | intros (_ & _ & H & _); contradiction]].
    destruct (Z.eqb_spec (insidePolygonCommitment (publicOutput q1))
                         (insidePolygonCommitment (publicOutput q2))) as [Ei | Ei];
      destruct (Z.eqb_spec (outsidePolygonCommitment (publicOutput q1))
                           (outsidePolygonCommitment (publicOutput q2))) as [Eo | Eo];
      cbn [andb Bool.eqb bind].
    - split; [intros (o & H); discriminate H | intros (_ & _ & _ & [H | H]); contradiction].
    - split; [intros _; auto | intros _; eexists; reflexivity].
    - split; [intros _; auto | intros _; eexists; reflexivity].
    - split; [intros _; auto | intros _; eexists; reflexivity]. }
  split; [apply Hiff |].
  intros H. apply Hiff in H as (_ & _ & _ & [H | H]); apply H; reflexivity.
Qed.

(** X15: no accumulator that the rollup produces carries two different
    non-zero commitments: a lifted proof has one side at zero, and
    [combine] hands back as inside commitment either zero or a copy of its
    outside commitment.  An inside set and a different outside set are
    never held together. *)
Theorem rollup_never_holds_two_sets
    (r : Rollup) (out : SelfProof CoordinatePolygonInclusionExclusionProof) :
  rollup Poseidon_hash r = Ok out ->
  insidePolygonCommitment (publicOutput out) = 0 \/
  outsidePolygonCommitment (publicOutput out) = 0 \/
  insidePolygonCommitment (publicOutput out)
    = outsidePolygonCommitment (publicOutput out).
Proof.
  intros H. destruct r as [c | l r]; cbn [rollup] in H.
  - apply bind_Ok in H as (p & _ & H).
    apply bind_Ok in H as (o & Ho & H). injection H as <-.
    apply fromCoordinatesInPolygonProof_sides in Ho.
    cbn [publicOutput]. tauto.
  - apply bind_Ok in H as (p1 & _ & H).
    apply bind_Ok in H as (p2 & _ & H).
    apply bind_Ok in H as (o & Ho & H). injection H as <-.
    apply combine_Ok_inv in Ho as (_ & _ & _ & _ & Ho).
    cbn [publicOutput]. tauto.
Qed.

End RollupAcceptance.

(** * Further properties of the prover mixin *)

Section ProverSessions.

Variable S : ProofSystem.

(** X16: a call that throws leaves the object exactly as it found it, for
    [authenticateFromIntegrationOracle], [inPolygon], [attachMetadata] and
    [exactGeoPoint] alike. *)
Theorem perform_throw_leaves_object_unchanged (this : Prover S) (c : Call S) :
  replyThrew (snd (perform S this c)) = true ->
  fst (perform S this c) = this.
Proof.
  destruct c as [publicKey signature | polygon | metadata |]; cbn [perform].
  - unfold authenticateFromIntegrationOracle.
    destruct (OracleGeoPointProviderCircuit_fromSignature S _ _ _);
      [| reflexivity].
    destruct (GeoPointProviderCircuit_fromOracle S _ _); [| reflexivity].
    cbn. discriminate.
  - unfold inPolygon.
    destruct (isUndefined (integrationOracleProof this)); [reflexivity |].
    destruct (readProof S (integrationOracleProof this)); [| reflexivity].
    destruct (GeoPointInPolygonCircuit_proveGeoPointIn3PointPolygon S _ _);
      [| reflexivity].
    cbn. discriminate.
  - unfold attachMetadata.
    destruct (isUndefined (integrationOracleProof this)); [reflexivity |].
    destruct (readProof S (integrationOracleProof this)); [| reflexivity].
    destruct (ExactGeolocationMetadataCircuit_attachMetadataToGeoPoint S _ _);
      [| reflexivity].
    cbn. discriminate.
  - reflexivity.
Qed.

(** What one call does to the object, read off its reply. *)
Lemma perform_state (this : Prover S) (c : Call S) :
  zkGeoPoint (fst (perform S this c)) = zkGeoPoint this /\
  integrationOracleProof (fst (perform S this c))
    = lastAuthentication (integrationOracleProof this)
        (returnedAuthentications [snd (perform S this c)]) /\
  allProfs (fst (perform S this c))
    = allProfs this ++ returnedAuthentications [snd (perform S this c)] /\
  insidePolygonProofs S (inPolygonProof (fst (perform S this c)))
    = insidePolygonProofs S (inPolygonProof this)
      ++ filter provesInside
           (returnedInPolygonProofs [snd (perform S this c)]) /\
  outsidePolygonProofs S (inPolygonProof (fst (perform S this c)))
    = outsidePolygonProofs S (inPolygonProof this)
      ++ filter (fun proof => negb (provesInside proof))
           (returnedInPolygonProofs [snd (perform S this c)]).
Proof.
  destruct c as [publicKey signature | polygon | metadata |]; cbn [perform].
  - unfold authenticateFromIntegrationOracle.
    destruct (OracleGeoPointProviderCircuit_fromSignature S _ _ _);
      [| cbn; rewrite !app_nil_r; repeat split].
    destruct (GeoPointProviderCircuit_fromOracle S _ _);
      cbn; rewrite !app_nil_r; repeat split.
  - unfold inPolygon.
    destruct (isUndefined (integrationOracleProof this));
      [cbn; rewrite !app_nil_r; repeat split |].
    destruct (readProof S (integrationOracleProof this));
      [| cbn; rewrite !app_nil_r; repeat split].
    destruct (GeoPointInPolygonCircuit_proveGeoPointIn3PointPolygon S _ _)
      as [raw |]; [| cbn; rewrite !app_nil_r; repeat split].
    cbn [fst snd returnedInPolygonProofs returnedAuthentications filter
         lastAuthentication fold_left zkGeoPoint integrationOracleProof
         allProfs inPolygonProof].
    unfold provesInside. cbn [inPolygonRawProof].
    destruct (UnverifiedProofData_isInside S raw);
      cbn [negb insidePolygonProofs outsidePolygonProofs];
      rewrite !app_nil_r; repeat split.
  - unfold attachMetadata.
    destruct (isUndefined (integrationOracleProof this));
      [cbn; rewrite !app_nil_r; repeat split |].
    destruct (readProof S (integrationOracleProof this));
      [| cbn; rewrite !app_nil_r; repeat split].
    destruct (ExactGeolocationMetadataCircuit_attachMetadataToGeoPoint S _ _);
      cbn; rewrite !app_nil_r; repeat split.
  - cbn. rewrite !app_nil_r. repeat split.
Qed.

Lemma returnedAuthentications_cons (r : Reply S) (rs : list (Reply S)) :
  returnedAuthentications (r :: rs)
  = returnedAuthentications [r] ++ returnedAuthentications rs.
Proof. destruct r as [[|] | | |]; reflexivity. Qed.

Lemma returnedInPolygonProofs_cons (r : Reply S) (rs : list (Reply S)) :
  returnedInPolygonProofs (r :: rs)
  = returnedInPolygonProofs [r] ++ returnedInPolygonProofs rs.
Proof. destruct r as [| [|] | |]; reflexivity. Qed.

Lemma session_state (calls : list (Call S)) :
  forall this : Prover S,
    zkGeoPoint (fst (session S this calls)) = zkGeoPoint this /\
    integrationOracleProof (fst (session S this calls))
      = lastAuthentication (integrationOracleProof this)
          (returnedAuthentications (snd (session S this calls))) /\
    allProfs (fst (session S this calls))
      = allProfs this ++ returnedAuthentications (snd (session S this calls)) /\
    insidePolygonProofs S (inPolygonProof (fst (session S this calls)))
      = insidePolygonProofs S (inPolygonProof this)
        ++ filter provesInside
             (returnedInPolygonProofs (snd (session S this calls))) /\
    outsidePolygonProofs S (inPolygonProof (fst (session S this calls)))
      = outsidePolygonProofs S (inPolygonProof this)
        ++ filter (fun proof => negb (provesInside proof))
             (returnedInPolygonProofs (snd (session S this calls))).
Proof.
  induction calls as [| c rest IH]; intros this.
  - cbn. rewrite !app_nil_r. repeat split.
  - rewrite session_cons. cbn [fst snd].
    destruct (IH (fst (perform S this c))) as (G & O & A & I & U).
    destruct (perform_state this c) as (G1 & O1 & A1 & I1 & U1).
    rewrite returnedAuthentications_cons, returnedInPolygonProofs_cons.
    rewrite !filter_app.
    rewrite G, O, A, I, U, G1, O1, A1, I1, U1.
    unfold lastAuthentication. rewrite fold_left_app, !app_assoc.
    repeat split.
Qed.

(** X17: the two lists of an object hold exactly the in-polygon proofs that
    its [inPolygon] calls returned, in call order: those whose proof says
    inside in [insidePolygonProofs], the others in [outsidePolygonProofs];
    no other call touches the lists. *)
Theorem session_records_proofs_in_call_order
    (g : GeoPoint S) (calls : list (Call S)) :
  insidePolygonProofs S
    (inPolygonProof (fst (session S (newProver S g) calls)))
  = filter provesInside
      (returnedInPolygonProofs (snd (session S (newProver S g) calls))) /\
  outsidePolygonProofs S
    (inPolygonProof (fst (session S (newProver S g) calls)))
  = filter (fun proof => negb (provesInside proof))
      (returnedInPolygonProofs (snd (session S (newProver S g) calls))).
Proof.
  destruct (session_state calls (newProver S g)) as (_ & _ & _ & I & U).
  rewrite I, U. split; reflexivity.
Qed.

Lemma lastAuthentication_cases
    (start : JsSlot (ZKGeoPointProviderCircuitProof S))
    (returned : list (ZKGeoPointProviderCircuitProof S)) :
  (returned = [] /\ lastAuthentication start returned = start) \/
  (exists earlier final,
      returned = earlier ++ [final] /\
      lastAuthentication start returned = Defined final).
Proof.
  induction returned as [| final earlier _] using rev_ind.
  - left. split; reflexivity.
  - right. exists earlier, final. split; [reflexivity |].
    unfold lastAuthentication. rewrite fold_left_app. reflexivity.
Qed.

(** X18: [allProfs] logs the provider proofs of the authentications that
    returned, in call order, and [integrationOracleProof] holds the last of
    them: it is [undefined] until the first one returns, never [null], and
    once set it is only ever replaced by a newer proof. *)
Theorem session_authentication_log (g : GeoPoint S) (calls : list (Call S)) :
  allProfs (fst (session S (newProver S g) calls))
    = returnedAuthentications (snd (session S (newProver S g) calls)) /\
  integrationOracleProof (fst (session S (newProver S g) calls))
    = match rev (allProfs (fst (session S (newProver S g) calls))) with
      | [] => Undefined
      | final :: _ => Defined final
      end.
Proof.
  destruct (session_state calls (newProver S g)) as (_ & O & A & _ & _).
  cbn [newProver allProfs integrationOracleProof app] in O, A.
  split; [exact A |]. rewrite O, A.
  destruct (lastAuthentication_cases Undefined
              (returnedAuthentications (snd (session S (newProver S g) calls))))
    as [(-> & ->) | (earlier & final & E & ->)].
  - reflexivity.
  - rewrite E, rev_app_distr. reflexivity.
Qed.

(** X19: on every object reached from a fresh one the [null] test of
    [exactGeoPoint] is false, so that neither of its own two throws can
    happen: the method is [exactGeoPointForIntegrationOracle]. *)
Theorem exactGeoPoint_null_guard_is_dead (g : GeoPoint S) (calls : list (Call S)) :
  isNull (integrationOracleProof (fst (session S (newProver S g) calls))) = false /\
  exactGeoPoint S (fst (session S (newProver S g) calls))
  = exactGeoPointForIntegrationOracle S (fst (session S (newProver S g) calls)).
Proof.
  destruct (session_state calls (newProver S g)) as (_ & O & _ & _ & _).
  cbn [newProver integrationOracleProof] in O.
  assert (N : isNull (integrationOracleProof
                        (fst (session S (newProver S g) calls))) = false).
  { rewrite O.
    destruct (lastAuthentication_cases Undefined
                (returnedAuthentications (snd (session S (newProver S g) calls))))
      as [(_ & ->) | (earlier & final & _ & ->)]; reflexivity. }
  split; [exact N |]. unfold exactGeoPoint. rewrite N. reflexivity.
Qed.

(** X20: once an object holds a provider proof it holds one for good: after
    any further calls, failing or not, [integrationOracleProof] is still an
    object, and [exactGeoPoint] is the result of the exact-reveal circuit
    on its proof. *)
Theorem session_stays_authenticated
    (this : Prover S) (held : ZKGeoPointProviderCircuitProof S)
    (calls : list (Call S)) :
  integrationOracleProof this = Defined held ->
  exists current,
    integrationOracleProof (fst (session S this calls)) = Defined current /\
    exactGeoPoint S (fst (session S this calls)) =
    match ExactGeoPointCircuit_fromGeoPointProvider S (providerProof current) with
    | Returned raw =>
        Returned (mkZKExactGeoPointCircuitProof S (zkGeoPoint this) raw)
    | Threw message => Threw message
    end.
Proof.
  intros H.
  destruct (session_state calls this) as (G & O & _ & _ & _).
  rewrite H in O.
  assert (D : exists current,
             integrationOracleProof (fst (session S this calls)) = Defined current).
  { rewrite O.
    destruct (lastAuthentication_cases (Defined held)
                (returnedAuthentications (snd (session S this calls))))
      as [(_ & ->) | (earlier & final & _ & ->)]; eexists; reflexivity. }
  destruct D as (current & D). exists current. split; [exact D |].
  unfold exactGeoPoint, exactGeoPointForIntegrationOracle,
    getIntegrationOracleProofOrError.
  rewrite D, G. reflexivity.
Qed.

End ProverSessions.

Section ProverCollectionsProperties.

Variable S : ProofSystem.

Lemma perform_unauthenticated (this : Prover S) (c : Call S) :
  integrationOracleProof this = Undefined ->
  isCompletedAuthentication S (snd (perform S this c)) = false ->
  replyThrew (snd (perform S this c)) = true /\ fst (perform S this c) = this.
Proof.
  intros U H.
  assert (T : replyThrew (snd (perform S this c)) = true).
  { destruct c as [publicKey signature | polygon | metadata |];
      cbn [perform] in *.
    - destruct (authenticateFromIntegrationOracle S this publicKey signature)
        as [this' [r | m]]; cbn in *; [discriminate H | reflexivity].
    - unfold inPolygon. rewrite U. reflexivity.
    - unfold attachMetadata. rewrite U. reflexivity.
    - cbn. rewrite (exactGeoPoint_Undefined S this U). reflexivity. }
  split; [exact T |]. apply perform_throw_leaves_object_unchanged, T.
Qed.

Lemma session_unauthenticated (calls : list (Call S)) :
  forall this : Prover S,
    integrationOracleProof this = Undefined ->
    authenticationCompleted S (snd (session S this calls)) = false ->
    fst (session S this calls) = this /\
    forallb replyThrew (snd (session S this calls)) = true.
Proof.
  induction calls as [| c rest IH]; intros this U H.
  - split; reflexivity.
  - rewrite session_cons in *. cbn [fst snd] in *.
    unfold authenticationCompleted in H. cbn [existsb] in H.
    apply orb_false_iff in H as [Hc Hrest].
    destruct (perform_unauthenticated this c U Hc) as (T & E).
    rewrite E in *. destruct (IH this U Hrest) as (F & A).
    cbn [forallb]. rewrite T, A. split; [exact F | reflexivity].
Qed.

(** X21: as long as no call of [authenticateFromIntegrationOracle] has
    returned, every call on a fresh object throws and the object stays as
    it was constructed: no proof is recorded and no metadata attached. *)
Theorem session_without_authentication_does_nothing
    (g : GeoPoint S) (calls : list (Call S)) :
  authenticationCompleted S (snd (session S (newProver S g) calls)) = false ->
  fst (session S (newProver S g) calls) = newProver S g /\
  forallb replyThrew (snd (session S (newProver S g) calls)) = true.
Proof. apply session_unauthenticated. reflexivity. Qed.




Variable ZKGeoPointInPolygonProof_AND :
  ZKGeoPointInPolygonProof S -> ZKGeoPointInPolygonProof S ->
  Outcome (ZKGeoPointInPolygonProof S).

Variable GeoPointInOrOutOfPolygonCircuitProof : Type.

Variable GeoPointInOrOutOfPolygonCircuit_fromPointInPolygonProofs :
  GeoPointInPolygonCircuitProof S -> GeoPointInPolygonCircuitProof S ->
  Outcome GeoPointInOrOutOfPolygonCircuitProof.

Lemma session_records_proofs_in_call_order_aux
    (g : GeoPoint S) (calls : list (Call S)) :
  insidePolygonProofs S
    (inPolygonProof (fst (session S (newProver S g) calls)))
  = filter provesInside
      (returnedInPolygonProofs (snd (session S (newProver S g) calls))) /\
  outsidePolygonProofs S
    (inPolygonProof (fst (session S (newProver S g) calls)))
  = filter (fun proof => negb (provesInside proof))
      (returnedInPolygonProofs (snd (session S (newProver S g) calls))) /\
  zkGeoPoint (fst (session S (newProver S g) calls)) = g.
Proof.
  destruct (session_state S calls (newProver S g)) as (G & _ & _ & I & U).
  rewrite I, U, G. repeat split.
Qed.

(** X23: [combineProofs] refuses fewer than two proofs without calling
    [AND]; on two proofs it is their [AND]; and on a longer list it is the
    roll-up of the list without its last proof, joined by [AND] to that
    last proof, a throw on the way ending the roll-up. *)
Theorem combineProofs_rolls_from_the_left :
  (forall proofs,
      (List.length proofs < 2)%nat ->
      combineProofs S ZKGeoPointInPolygonProof_AND proofs
      = Threw "Cannot combine less than 2 proofs.") /\
  (forall proof1 proof2,
      combineProofs S ZKGeoPointInPolygonProof_AND [proof1; proof2]
      = ZKGeoPointInPolygonProof_AND proof1 proof2) /\
  (forall proofs final,
      (2 <= List.length proofs)%nat ->
      combineProofs S ZKGeoPointInPolygonProof_AND (proofs ++ [final])
      = match combineProofs S ZKGeoPointInPolygonProof_AND proofs with
        | Returned combined => ZKGeoPointInPolygonProof_AND combined final
        | Threw m => Threw m
        end).
Proof.
  split; [| split].
  - intros [| p1 [| p2 rest]] H; cbn in *; try reflexivity. lia.
  - reflexivity.
  - intros [| p1 [| p2 rest]] final H; cbn [List.length] in H; try lia.
    unfold combineProofs.
    replace ((List.length ((p1 :: p2 :: rest) ++ [final]) <? 2)%nat) with false
      by (symmetry; apply Nat.ltb_ge; cbn; lia).
    replace ((List.length (p1 :: p2 :: rest) <? 2)%nat) with false
      by (symmetry; apply Nat.ltb_ge; cbn; lia).
    cbn [app]. rewrite fold_left_app. reflexivity.
Qed.

(** X24: [combinePointInPolygonProofs] needs a returned inside proof and a
    returned outside proof: on an object whose [inPolygon] calls returned no
    inside proof it throws the inside message, with inside proofs but no
    outside proof the outside message, and with exactly one of each it hands
    the two raw proofs to the rollup circuit without calling [AND]. *)
Theorem combinePointInPolygonProofs_needs_both_sides
    (g : GeoPoint S) (calls : list (Call S)) :
  let final := fst (session S (newProver S g) calls) in
  let returned := returnedInPolygonProofs (snd (session S (newProver S g) calls)) in
  let run :=
    combinePointInPolygonProofs S ZKGeoPointInPolygonProof_AND
      GeoPointInOrOutOfPolygonCircuitProof
      GeoPointInOrOutOfPolygonCircuit_fromPointInPolygonProofs final in
  (filter provesInside returned = [] ->
   run = Threw "Cannot combine proofs for a ZKGeoPoint that has not been proven to be inside of any polygons. It's requied to have both, inside and outside polygon proofs. If you only have one set, you can combine them together with .AND and/or .OR methods.") /\
  (filter provesInside returned <> [] ->
   filter (fun proof => negb (provesInside proof)) returned = [] ->
   run = Threw "Cannot combine proofs for a ZKGeoPoint that has not been proven to be outside of any polygons. It's requied to have both, inside and outside polygon proofs. If you only have one set, you can combine them together with .AND and/or .OR methods.") /\
  (forall inside outside,
      filter provesInside returned = [inside] ->
      filter (fun proof => negb (provesInside proof)) returned = [outside] ->
      run =
      match GeoPointInOrOutOfPolygonCircuit_fromPointInPolygonProofs
              (inPolygonRawProof S inside) (inPolygonRawProof S outside) with
      | Returned proof =>
          Returned (mkZKGeoPointInOrOutOfPolygonCircuitProof S
                      GeoPointInOrOutOfPolygonCircuitProof g
                      (mkRolledUpZKGeoPointInPolygonCircuitProof S [inside] inside)
                      (mkRolledUpZKGeoPointInPolygonCircuitProof S [outside] outside)
                      proof)
      | Threw m => Threw m
      end).
Proof.
  cbv zeta.
  destruct (session_records_proofs_in_call_order_aux g calls) as (I & U & G).
  unfold combinePointInPolygonProofs. rewrite I, U, G.
  split; [| split].
  - intros ->. reflexivity.
  - intros NE ->.
    destruct (filter provesInside _); [contradiction | reflexivity].
  - intros inside outside -> ->. cbn [List.length Nat.eqb]. reflexivity.
Qed.

End ProverCollectionsProperties.

(** * The further properties at concrete inputs *)

Lemma GeographicalPoint_assertIsValid_accepted_range_witness :
  0 <= Int64.magnitude (latitude almostNinetyOne) /\
  0 <= Int64.magnitude (factor almostNinetyOne) /\
  GeographicalPoint_assertIsValid almostNinetyOne = Ok tt.
Proof.
  assert (A : 0 <= Int64.magnitude (latitude almostNinetyOne)) by (cbn; lia).
  assert (B : 0 <= Int64.magnitude (factor almostNinetyOne)) by (cbn; lia).
  split; [exact A |]. split; [exact B |].
  apply (GeographicalPoint_assertIsValid_accepted_range almostNinetyOne A B).
  cbn. lia.
Defined.

Lemma verifyProoveCoordinatesIn3dPolygonArguments_accepts_witness :
  Int64_wellFormed (factor (point sameFactorPoint)) /\
  Int64_wellFormed (factor (vertice1 mixedFactorPolygon)) /\
  verifyProoveCoordinatesIn3dPolygonArguments sameFactorPoint mixedFactorPolygon
    = Ok (mkProoveCoordinatesIn3dPolygonArgumentsValues
            (point sameFactorPoint) mixedFactorPolygon).
Proof.
  assert (W : Int64_wellFormed (Int64.of_Z 10))
    by (unfold Int64_wellFormed; cbn; lia).
  split; [exact W |]. split; [exact W |].
  apply (verifyProoveCoordinatesIn3dPolygonArguments_accepts
           sameFactorPoint mixedFactorPolygon W W W W).
  repeat split.
Defined.

Lemma ThreePointPolygon_assertIsValid_ignores_ordering_witness :
  ThreePointPolygon_assertIsValid mixedFactorPolygon = Ok tt /\
  ThreePointPolygon_assertIsValid
    (mkThreePointPolygon (vertice3 mixedFactorPolygon)
                         (vertice2 mixedFactorPolygon)
                         (vertice1 mixedFactorPolygon)) = Ok tt /\
  ThreePointPolygon_assertIsValid
    (mkThreePointPolygon (vertice1 mixedFactorPolygon)
                         (vertice1 mixedFactorPolygon)
                         (vertice1 mixedFactorPolygon)) = Ok tt.
Proof.
  assert (V : ThreePointPolygon_assertIsValid mixedFactorPolygon = Ok tt)
    by reflexivity.
  split; [exact V |].
  apply (ThreePointPolygon_assertIsValid_ignores_ordering
           (vertice1 mixedFactorPolygon) (vertice2 mixedFactorPolygon)
           (vertice3 mixedFactorPolygon) V).
Defined.

Lemma isPointIn3PointPolygon_outside_bounding_box_witness :
  outsideBoundingBox farPoint unitPolygon /\
  inputsWithinBudget farPoint unitPolygon /\
  isPointIn3PointPolygon farPoint unitPolygon = Ok false.
Proof.
  assert (O : outsideBoundingBox farPoint unitPolygon).
  { unfold outsideBoundingBox. cbn. lia. }
  assert (B : inputsWithinBudget farPoint unitPolygon).
  { unfold inputsWithinBudget, pointWithinBudget, withinBudget. cbn. lia. }
  split; [exact O |]. split; [exact B |].
  apply (isPointIn3PointPolygon_outside_bounding_box farPoint unitPolygon O), B.
Defined.

Lemma chainAND_output_witness :
  exists out,
    compose sampleHash (chainAND (provenInside 1 5) sampleChain) = Ok out /\
    isInPolygon (publicOutput out) = true /\
    polygonCommitment (publicOutput out)
      = sampleHash [sampleHash [1; 2]; 3].
Proof.
  destruct (compose sampleHash (chainAND (provenInside 1 5) sampleChain))
    as [out | e] eqn:Hrun; [| vm_compute in Hrun; discriminate Hrun].
  exists out. split; [reflexivity |].
  destruct (chainAND_output sampleHash (provenInside 1 5) sampleChain out Hrun)
    as (Hbit & _ & Hpoly & _).
  split; [exact Hbit | exact Hpoly].
Defined.

Lemma rollup_never_holds_two_sets_witness :
  exists out,
    rollup sampleHash sampleRollup = Ok out /\
    (insidePolygonCommitment (publicOutput out) = 0 \/
     outsidePolygonCommitment (publicOutput out) = 0 \/
     insidePolygonCommitment (publicOutput out)
       = outsidePolygonCommitment (publicOutput out)).
Proof.
  destruct (rollup sampleHash sampleRollup) as [out | e] eqn:Hrun;
    [| vm_compute in Hrun; discriminate Hrun].
  exists out. split; [reflexivity |].
  apply (rollup_never_holds_two_sets sampleHash sampleRollup out Hrun).
Defined.

Lemma perform_throw_leaves_object_unchanged_witness :
  replyThrew
    (snd (perform sampleProofSystem authenticatedProver
            (CallAuthenticateFromIntegrationOracle sampleProofSystem 10 99)))
    = true /\
  fst (perform sampleProofSystem authenticatedProver
         (CallAuthenticateFromIntegrationOracle sampleProofSystem 10 99))
    = authenticatedProver.
Proof.
  assert (T : replyThrew
                (snd (perform sampleProofSystem authenticatedProver
                        (CallAuthenticateFromIntegrationOracle
                           sampleProofSystem 10 99))) = true) by reflexivity.
  split; [exact T |].
  apply (perform_throw_leaves_object_unchanged sampleProofSystem
           authenticatedProver
           (CallAuthenticateFromIntegrationOracle sampleProofSystem 10 99) T).
Defined.

Lemma session_stays_authenticated_witness :
  integrationOracleProof authenticatedProver
    = Defined (mkZKGeoPointProviderCircuitProof sampleProofSystem (3, 4)) /\
  exists current,
    integrationOracleProof
      (fst (session sampleProofSystem authenticatedProver sampleCalls))
      = Defined current.
Proof.
  assert (H : integrationOracleProof authenticatedProver
              = Defined (mkZKGeoPointProviderCircuitProof sampleProofSystem (3, 4)))
    by reflexivity.
  split; [exact H |].
  destruct (session_stays_authenticated sampleProofSystem authenticatedProver
              _ sampleCalls H) as (current & D & _).
  exists current. exact D.
Defined.

Lemma session_without_authentication_does_nothing_witness :
  authenticationCompleted sampleProofSystem
    (snd (session sampleProofSystem (newProver sampleProofSystem (3, 4))
                  sampleCalls)) = false /\
  fst (session sampleProofSystem (newProver sampleProofSystem (3, 4)) sampleCalls)
    = newProver sampleProofSystem (3, 4).
Proof.
  assert (H : authenticationCompleted sampleProofSystem
                (snd (session sampleProofSystem
                        (newProver sampleProofSystem (3, 4)) sampleCalls))
              = false) by reflexivity.
  split; [exact H |].
  apply (session_without_authentication_does_nothing sampleProofSystem
           (3, 4) sampleCalls H).
Defined.

(** * Proving twice and combining *)

(** X25: two runs of [proveCoordinatesIn3PointPolygon] for the same nonced
    point over triangles with different commitments always combine: [AND]
    and [OR] of the two proof states return the hash of the two polygon
    commitments and the commitment of the point, [AND] with the
    classification of the point in the first triangle and [OR] with the
    disjunction of the two classifications. *)
Theorem combining_two_proving_runs
    (Poseidon_hash : list Field.t -> Field.t)
    (p : NoncedGeographicalPoint) (polygon1 polygon2 : ThreePointPolygon) :
  inputsWithinBudget p polygon1 ->
  inputsWithinBudget p polygon2 ->
  ThreePointPolygon_hash Poseidon_hash polygon1
    <> ThreePointPolygon_hash Poseidon_hash polygon2 ->
  exists state1 state2,
    proveCoordinatesIn3PointPolygon Poseidon_hash p polygon1 = Ok state1 /\
    proveCoordinatesIn3PointPolygon Poseidon_hash p polygon2 = Ok state2 /\
    AND Poseidon_hash (mkSelfProof state1 true) (mkSelfProof state2 true)
      = Ok (mkCoordinateProofState
              (Poseidon_hash [ThreePointPolygon_hash Poseidon_hash polygon1;
                              ThreePointPolygon_hash Poseidon_hash polygon2])
              (NoncedGeographicalPoint_hash Poseidon_hash p)
              (specIsInside p polygon1)) /\
    OR Poseidon_hash (mkSelfProof state1 true) (mkSelfProof state2 true)
      = Ok (mkCoordinateProofState
              (Poseidon_hash [ThreePointPolygon_hash Poseidon_hash polygon1;
                              ThreePointPolygon_hash Poseidon_hash polygon2])
              (NoncedGeographicalPoint_hash Poseidon_hash p)
              (specIsInside p polygon1 || specIsInside p polygon2)).
Proof.
  intros B1 B2 Hdiff.
  unfold proveCoordinatesIn3PointPolygon.
  rewrite (isPointIn3PointPolygon_budget_specIsInside p polygon1 B1),
    (isPointIn3PointPolygon_budget_specIsInside p polygon2 B2).
  cbn [bind]. eexists. eexists.
  split; [reflexivity |]. split; [reflexivity |]. split.
  - rewrite AND_output; try reflexivity. exact Hdiff.
  - unfold OR, verify, Field.assertEquals, Field.assertNotEquals,
      Field.equals, assertTrue.
    cbn [publicOutput verifies coordinatesCommitment polygonCommitment
         isInPolygon bind].
    rewrite Z.eqb_refl. cbn [bind].
    destruct (Z.eqb_spec (ThreePointPolygon_hash Poseidon_hash polygon1)
                         (ThreePointPolygon_hash Poseidon_hash polygon2));
      [contradiction |].
    cbn [negb bind]. destruct (_ || _); reflexivity.
Qed.

Lemma combining_two_proving_runs_witness :
  inputsWithinBudget scenarioInside scenarioPolygon /\
  inputsWithinBudget scenarioInside secondScenarioPolygon /\
  ThreePointPolygon_hash sampleHash scenarioPolygon
    <> ThreePointPolygon_hash sampleHash secondScenarioPolygon /\
  exists state1 state2,
    proveCoordinatesIn3PointPolygon sampleHash scenarioInside scenarioPolygon
      = Ok state1 /\
    proveCoordinatesIn3PointPolygon sampleHash scenarioInside secondScenarioPolygon
      = Ok state2 /\
    AND sampleHash (mkSelfProof state1 true) (mkSelfProof state2 true)
      = Ok (mkCoordinateProofState
              (sampleHash [ThreePointPolygon_hash sampleHash scenarioPolygon;
                           ThreePointPolygon_hash sampleHash secondScenarioPolygon])
              (NoncedGeographicalPoint_hash sampleHash scenarioInside)
              true).
Proof.
  assert (B1 : inputsWithinBudget scenarioInside scenarioPolygon).
  { unfold inputsWithinBudget, pointWithinBudget, withinBudget. cbn. lia. }
  assert (B2 : inputsWithinBudget scenarioInside secondScenarioPolygon).
  { unfold inputsWithinBudget, pointWithinBudget, withinBudget. cbn. lia. }
  assert (D : ThreePointPolygon_hash sampleHash scenarioPolygon
              <> ThreePointPolygon_hash sampleHash secondScenarioPolygon).
  { vm_compute. discriminate. }
  split; [exact B1 |]. split; [exact B2 |]. split; [exact D |].
  destruct (combining_two_proving_runs sampleHash scenarioInside
              scenarioPolygon secondScenarioPolygon B1 B2 D)
    as (state1 & state2 & R1 & R2 & A & _).
  exists state1, state2. split; [exact R1 |]. split; [exact R2 |].
  rewrite A. reflexivity.
Defined.
